(** * AutoGraph [pyct/compiler.py]: AST to source text, AST to loaded module

    A shallow embedding of [ast_to_source] and [ast_to_object] from
    [tensorflow/python/autograph/pyct/compiler.py], together with the
    properties of the two functions that the design document states.

    Python text is modelled by [string]; the module namespace
    ([compiled_nodes.__dict__]) by a [gmap string value]; the file system,
    the [atexit] registry and [sys.modules] by an explicit [world] that is
    threaded through [ast_to_object].  The libraries the file calls
    ([astor], [gast], [origin_info], [imp], [tempfile]) are not part of the
    file: they are the fields of the two interfaces [Renderer] and [Host]. *)

From Stdlib Require Import ZArith Ascii String List Lia.
From stdpp Require Import base option list gmap strings.

Local Open Scope string_scope.
Local Open Scope list_scope.

(** ** Python built-ins used by the file *)

Module Py.

(** The line feed, written ['\n'] in the source. *)
Definition LF : ascii := "010"%char.
Definition nl : string := String LF EmptyString.

(** [str.isspace] on the code points below 256 (Python 3):
    TAB, LF, VT, FF, CR, FS, GS, RS, US, SPACE, NEL and NBSP. *)
Definition isspace (c : ascii) : bool :=
  let n := nat_of_ascii c in
  (((9 <=? n) && (n <=? 13)) || ((28 <=? n) && (n <=? 32))
   || (n =? 133) || (n =? 160))%nat.

(** [s.rstrip()]: [s] without its trailing whitespace. *)
Fixpoint rstrip (s : string) : string :=
  match s with
  | EmptyString => EmptyString
  | String c s' =>
      match rstrip s' with
      | EmptyString => if isspace c then EmptyString else String c EmptyString
      | r => String c r
      end
  end.

(** Truth value of a string: non-empty. *)
Definition truthy (s : string) : bool :=
  match s with EmptyString => false | String _ _ => true end.

(** Truth value of a list: non-empty. *)
Definition nonempty {A} (l : list A) : bool :=
  match l with [] => false | _ :: _ => true end.

(** [s.split('\n')]: always at least one piece. *)
Fixpoint split_nl (s : string) : list string :=
  match s with
  | EmptyString => [EmptyString]
  | String c s' =>
      if Ascii.eqb c LF then EmptyString :: split_nl s'
      else match split_nl s' with
           | l :: ls => String c l :: ls
           | [] => [String c EmptyString]
           end
  end.

(** [sep.join(pieces)]. *)
Fixpoint join (sep : string) (pieces : list string) : string :=
  match pieces with
  | [] => EmptyString
  | [p] => p
  | p :: ps => p +:+ sep +:+ join sep ps
  end.

(** [range(lo, hi)]. *)
Definition range (lo hi : Z) : list Z := seqZ lo (hi - lo).

(** [s[:-3]]. *)
Definition drop_last3 (s : string) : string :=
  substring 0 (String.length s - 3) s.

(** [os.path.basename] (POSIX): what follows the last ['/']. *)
Fixpoint basename_from (acc p : string) : string :=
  match p with
  | EmptyString => acc
  | String c p' =>
      if Ascii.eqb c "/"%char then basename_from EmptyString p'
      else basename_from (acc +:+ String c EmptyString) p'
  end.
Definition basename (p : string) : string := basename_from EmptyString p.

(** [repr(s)] of a text (Python 3, code points below 256): between single
    quotes, or double quotes when the text holds a single quote and no
    double quote; the quote in use and the backslash are escaped, TAB, LF
    and CR are written [\t], [\n], [\r], and every other character
    that is not printable is written [\xhh]. *)
Definition SQ : ascii := "'"%char.
Definition DQ : ascii := "034"%char.
Definition BACKSLASH : ascii := "\"%char.

Definition hex_digit (n : nat) : ascii :=
  match n with
  | 0 => "0" | 1 => "1" | 2 => "2" | 3 => "3" | 4 => "4" | 5 => "5"
  | 6 => "6" | 7 => "7" | 8 => "8" | 9 => "9" | 10 => "a" | 11 => "b"
  | 12 => "c" | 13 => "d" | 14 => "e" | _ => "f"
  end%char.

Definition isprintable (c : ascii) : bool :=
  let n := nat_of_ascii c in
  (((32 <=? n) && (n <? 127)) || ((161 <=? n) && negb (n =? 173)))%nat.

Definition holds (c : ascii) (s : string) : bool :=
  existsb (Ascii.eqb c) (list_ascii_of_string s).

Definition repr_char (quote c : ascii) : string :=
  if Ascii.eqb c quote || Ascii.eqb c BACKSLASH
  then String BACKSLASH (String c EmptyString)
  else if Ascii.eqb c "009"%char then String BACKSLASH "t"
  else if Ascii.eqb c LF then String BACKSLASH "n"
  else if Ascii.eqb c "013"%char then String BACKSLASH "r"
  else if isprintable c then String c EmptyString
  else String BACKSLASH
         (String "x"%char
            (String (hex_digit (nat_of_ascii c / 16))
               (String (hex_digit (nat_of_ascii c mod 16)) EmptyString))).

Definition repr (s : string) : string :=
  let quote := if holds SQ s && negb (holds DQ s) then DQ else SQ in
  String quote
    (fold_right (fun c r => repr_char quote c +:+ r)
       (String quote EmptyString) (list_ascii_of_string s)).

End Py.

(** ** Data *)

(** Exceptions: those the called libraries raise, and the [assert] of
    [ast_to_object]. *)
Inductive exn (pyexn : Type) : Type :=
  | Raised (e : pyexn)
  | AssertionError (msg : string).
Arguments Raised {pyexn} e.
Arguments AssertionError {pyexn} msg.

Inductive outcome (E A : Type) : Type :=
  | Ok (a : A)
  | Raise (e : exn E).
Arguments Ok {E A} a.
Arguments Raise {E A} e.

(** What [generator.result] holds: text, or (in some Python versions) a
    literal value that [str] turns into text. *)
Inductive fragment (literal : Type) : Type :=
  | FStr (s : string)
  | FLit (v : literal).
Arguments FStr {literal} s.
Arguments FLit {literal} v.

(** The [SourceGenerator] object: its [result] list and the rest of its
    fields. *)
Record generator (literal gstate : Type) : Type := Generator {
  result : list (fragment literal);
  internals : gstate
}.
Arguments Generator {literal gstate} result internals.
Arguments result {literal gstate} g.
Arguments internals {literal gstate} g.

(** [generator.result.append(x)]. *)
Definition result_append {literal gstate}
    (g : generator literal gstate) (x : fragment literal)
  : generator literal gstate :=
  Generator (result g ++ [x]) (internals g).

(** A list or a tuple of nodes, and the argument [node] / [nodes]: one node
    or such a sequence. *)
Inductive pyseq (node : Type) : Type :=
  | SList (ns : list node)
  | STuple (ns : list node).
Arguments SList {node} ns.
Arguments STuple {node} ns.

Inductive pyarg (node : Type) : Type :=
  | PNode (n : node)
  | PSeq (s : pyseq node).
Arguments PNode {node} n.
Arguments PSeq {node} s.

Definition items {node} (s : pyseq node) : list node :=
  match s with SList ns | STuple ns => ns end.

(** [isinstance(x, (list, tuple))]. *)
Definition isinstance_list_tuple {node} (x : pyarg node) : bool :=
  match x with PNode _ => false | PSeq _ => true end.

(** [if not isinstance(x, (list, tuple)): x = (x,)]. *)
Definition as_sequence {node} (x : pyarg node) : pyseq node :=
  match x with
  | PNode n => STuple [n]
  | PSeq s => s
  end.

(** ** The text generation engine ([astor], [gast]) *)

Class Renderer (node literal gstate pyexn : Type) : Type := {
  (** [str(v)] for a literal left in the result list *)
  str_literal : literal -> string;
  (** [astor.codegen.SourceGenerator(indentation, False, pretty_string)]:
      the fields of the new object other than [result], which is empty *)
  SourceGenerator : string -> gstate;
  (** [generator.visit(n)]: updates the generator or raises *)
  visit : node -> generator literal gstate
          -> pyexn + generator literal gstate;
  (** [isinstance(n, gast.AST)] and [gast.gast_to_ast(n)] *)
  is_gast : node -> bool;
  gast_to_ast : node -> node
}.

Section Serializer.
Context {node literal gstate pyexn : Type}.
Context {R : Renderer node literal gstate pyexn}.

Definition py_str (x : fragment literal) : string :=
  match x with FStr s => s | FLit v => str_literal v end.

(** [''.join(map(str, l))] *)
Definition text_of (l : list (fragment literal)) : string :=
  Py.join EmptyString (map py_str l).

(** Lines 53-54: a [gast] node is converted before it is visited. *)
Definition canonical (n : node) : node :=
  if is_gast n then gast_to_ast n else n.

(** The loop of lines 52-56. *)
Fixpoint visit_all (ns : list node) (g : generator literal gstate)
  : pyexn + generator literal gstate :=
  match ns with
  | [] => inr g
  | n :: ns' =>
      let n := canonical n in
      match visit n g with
      | inl e => inl e
      | inr g' => visit_all ns' (result_append g' (FStr Py.nl))
      end
  end.

(** Lines 47-60: the text accumulated before post-processing. *)
Definition accumulated (node_ : pyarg node) (indentation : string)
  : outcome pyexn string :=
  let node_ := as_sequence node_ in
  let generator := Generator [] (SourceGenerator indentation) in
  match visit_all (items node_) generator with
  | inl e => Raise (Raised e)
  | inr generator => Ok (text_of (result generator))
  end.

(** One turn of the loop of lines 65-67. *)
Definition keep_line (trimmed_code_lines : list string) (l : string)
  : list string :=
  if Py.truthy (Py.rstrip l) || Py.nonempty trimmed_code_lines
  then trimmed_code_lines ++ [l]
  else trimmed_code_lines.

(** Lines 62-68: strip leading blank lines. *)
Definition strip_leading_blank_lines (code : string) : string :=
  let code_lines := Py.split_nl code in
  let trimmed_code_lines := fold_left keep_line code_lines [] in
  Py.join Py.nl trimmed_code_lines.

Definition ast_to_source (node_ : pyarg node) (indentation : string)
  : outcome pyexn string :=
  match accumulated node_ indentation with
  | Raise e => Raise e
  | Ok code => Ok (strip_leading_blank_lines code)
  end.

End Serializer.


(** ** The world [ast_to_object] acts on *)

(** What [ast_to_object] does to the world, in the order it does it. *)
Inductive event (node : Type) : Type :=
  | EvCreate (path : string)
  | EvWrite (path text : string)
  | EvSourceMap (nodes : pyseq node) (source path : string)
                (indices : list Z)
  | EvClose (path : string)
  | EvAtexit (path : string)
  | EvLoad (name path : string)
  | EvAttach (name key : string).
Arguments EvCreate {node} path.
Arguments EvWrite {node} path text.
Arguments EvSourceMap {node} nodes source path indices.
Arguments EvClose {node} path.
Arguments EvAtexit {node} path.
Arguments EvLoad {node} name path.
Arguments EvAttach {node} name key.

(** A module object: its name, the file it was loaded from, its
    [__dict__]. *)
Record pymodule (value : Type) : Type := Module_ {
  m_name : string;
  m_file : string;
  m_dict : gmap string value
}.
Arguments Module_ {value} m_name m_file m_dict.
Arguments m_name {value} p.
Arguments m_file {value} p.
Arguments m_dict {value} p.

(** [str(m)] for a module loaded from a file:
    ['<module {!r} from {!r}>'.format(name, file)]. *)
Definition module_str {value} (m : pymodule value) : string :=
  "<module " +:+ Py.repr (m_name m) +:+ " from " +:+ Py.repr (m_file m)
  +:+ ">".

Record world (node value : Type) : Type := World {
  (** file contents, by path *)
  w_disk : gmap string string;
  (** text written to the open files and not yet flushed *)
  w_open : gmap string string;
  (** the [atexit] registry: the paths whose [os.remove] is registered *)
  w_atexit : list string;
  (** [sys.modules]: the module objects, by name *)
  w_modules : gmap string (pymodule value);
  (** how many temporary names were handed out *)
  w_tmp : nat;
  w_trace : list (event node)
}.
Arguments World {node value} w_disk w_open w_atexit w_modules w_tmp w_trace.
Arguments w_disk {node value} w.
Arguments w_open {node value} w.
Arguments w_atexit {node value} w.
Arguments w_modules {node value} w.
Arguments w_tmp {node value} w.
Arguments w_trace {node value} w.

(** ** The libraries behind [ast_to_object] ([tempfile], [origin_info],
    [imp]) *)

Class Host (node value pyexn : Type) : Type := {
  (** directory, prefix and random part of the [k]-th temporary name; the
      suffix ['.py'] is added to it *)
  tmp_stem : nat -> string;
  (** [origin_info.create_source_map(nodes, code, filename, indices)] *)
  create_source_map : pyseq node -> string -> string -> list Z
                      -> pyexn + value;
  (** executing the text of a file as the module of the given name: the
      namespace it leaves, or the error ([imp.load_source]) *)
  exec_source : string -> string -> string -> pyexn + gmap string value;
  (** the error of opening a file that is not there *)
  file_not_found : string -> pyexn;
  (** [__debug__]: true in a normal run, false when the interpreter runs
      with [-O], which compiles the [assert] statements away *)
  py_debug : bool
}.

(** The reserved name (line 131). *)
Definition source_map_name : string := "ag_source_map__".

Definition dquote : string := String "034"%char EmptyString.

(** The message of the [assert] (lines 133-134). *)
Definition collision_message (unit_str key : string) : string :=
  "cannot convert " +:+ unit_str +:+ " because is has namespace attribute "
  +:+ dquote +:+ key +:+ dquote +:+ ", which is reserved for AutoGraph.".

Section Compiler.
Context {node literal gstate value pyexn : Type}.
Context {R : Renderer node literal gstate pyexn}.
Context {H : Host node value pyexn}.

Local Abbreviation world := (world node value).

(** State and exceptions: a computation takes the world and gives a value
    or an exception, and the world it leaves. *)
Definition M (A : Type) : Type := world -> outcome pyexn A * world.

Definition ret {A} (a : A) : M A := fun w => (Ok a, w).

Definition bind {A B} (m : M A) (k : A -> M B) : M B :=
  fun w =>
    match m w with
    | (Ok a, w') => k a w'
    | (Raise e, w') => (Raise e, w')
    end.

Definition raise {A} (e : exn pyexn) : M A := fun w => (Raise e, w).

Definition lift {A} (r : outcome pyexn A) : M A := fun w => (r, w).

Definition log (ev : event node) (w : world) : world :=
  World (w_disk w) (w_open w) (w_atexit w) (w_modules w) (w_tmp w)
        (w_trace w ++ [ev]).

Notation "x <~ m ;; k" := (bind m (fun x => k))
  (at level 100, m at next level, right associativity).

(** [tempfile.NamedTemporaryFile(mode='w', suffix='.py', delete=False)]:
    a new, empty, open file; the result is its name [f.name].  Creating,
    writing and closing the file are taken to succeed. *)
Definition NamedTemporaryFile : M string :=
  fun w =>
    let path := tmp_stem (w_tmp w) +:+ ".py" in
    (Ok path,
     log (EvCreate path)
       (World (<[path := EmptyString]> (w_disk w))
              (<[path := EmptyString]> (w_open w))
              (w_atexit w) (w_modules w) (S (w_tmp w)) (w_trace w))).

(** [f.write(text)]: into the buffer of the open file. *)
Definition f_write (path text : string) : M unit :=
  fun w =>
    (Ok tt,
     log (EvWrite path text)
       (World (w_disk w) (alter (fun buf => buf +:+ text) path (w_open w))
              (w_atexit w) (w_modules w) (w_tmp w) (w_trace w))).

(** Closing the file: the buffer reaches the disk. *)
Definition f_close (path : string) (w : world) : world :=
  match w_open w !! path with
  | Some buf =>
      World (alter (fun text => text +:+ buf) path (w_disk w))
            (delete path (w_open w))
            (w_atexit w) (w_modules w) (w_tmp w)
            (w_trace w ++ [EvClose path])
  | None => log (EvClose path) w
  end.

(** [with ... as f: body]: the file is closed when the body is left,
    normally or by an exception. *)
Definition with_file {A} (path : string) (body : M A) : M A :=
  fun w => let (r, w') := body w in (r, f_close path w').

(** [atexit.register(lambda: os.remove(path))]. *)
Definition atexit_register (path : string) : M unit :=
  fun w =>
    (Ok tt,
     log (EvAtexit path)
       (World (w_disk w) (w_open w) (w_atexit w ++ [path]) (w_modules w)
              (w_tmp w) (w_trace w))).

Definition call_create_source_map (nodes : pyseq node) (source path : string)
    (indices : list Z) : M value :=
  fun w =>
    let w := log (EvSourceMap nodes source path indices) w in
    match create_source_map nodes source path indices with
    | inl e => (Raise (Raised e), w)
    | inr source_map => (Ok source_map, w)
    end.

(** [imp.load_source(name, path)]: reads the file, executes it, records
    the module in [sys.modules]; the result refers to the module by its
    name.  Of what the loader and the executed file do, the model keeps
    the namespace the file leaves or the error it raises; it leaves out
    the bytecode cache the loader may write beside the file and the
    modules the file imports, so nothing is stated below about the files
    and modules of the interpreter other than those of the calls. *)
Definition load_source (name path : string) : M string :=
  fun w =>
    let w := log (EvLoad name path) w in
    match w_disk w !! path with
    | None => (Raise (Raised (file_not_found path)), w)
    | Some text =>
        match exec_source name path text with
        | inl e => (Raise (Raised e), w)
        | inr ns =>
            (Ok name,
             World (w_disk w) (w_open w) (w_atexit w)
                   (<[name := Module_ name path ns]> (w_modules w))
                   (w_tmp w) (w_trace w))
        end
    end.

(** The module a name refers to. *)
Definition module_of (w : world) (name : string) : pymodule value :=
  match w_modules w !! name with
  | Some m => m
  | None => Module_ name EmptyString ∅
  end.

(** [m.__dict__[key] = v]. *)
Definition setitem_dict (name key : string) (v : value) : M unit :=
  fun w =>
    (Ok tt,
     log (EvAttach name key)
       (World (w_disk w) (w_open w) (w_atexit w)
              (alter (fun m => Module_ (m_name m) (m_file m)
                                       (<[key := v]> (m_dict m)))
                     name (w_modules w))
              (w_tmp w) (w_trace w))).

(** Lines 129-135.  The [assert] of lines 132-134 is there only when
    [__debug__] is true. *)
Definition attach_source_map (compiled_nodes : string)
    (source_map : option value) : M unit :=
  fun w =>
    let m := module_of w compiled_nodes in
    let held :=
      match m_dict m !! source_map_name with
      | Some _ => true
      | None => false
      end in
    if py_debug && held
    then (Raise (AssertionError
                   (collision_message (module_str m) source_map_name)), w)
    else match source_map with
         | Some sm => setitem_dict compiled_nodes source_map_name sm w
         | None => (Ok tt, w)
         end.

(** [if source_prefix: source = source_prefix + '\n' + source]. *)
Definition add_prefix (source_prefix : option string) (source : string)
  : string :=
  match source_prefix with
  | Some p => if Py.truthy p then p +:+ Py.nl +:+ source else source
  | None => source
  end.

(** Lines 112-115. *)
Definition indices_of (nodes : pyseq node) : list Z :=
  if isinstance_list_tuple (PSeq nodes)
  then Py.range (- Z.of_nat (length (items nodes))) 0
  else [(-1)%Z].

Definition ast_to_object (nodes : pyarg node) (indentation : string)
    (include_source_map : bool) (source_prefix : option string)
    (delete_on_exit : bool) : M (string * string) :=
  let nodes := as_sequence nodes in
  source <~ lift (ast_to_source (PSeq nodes) indentation) ;;
  let source := add_prefix source_prefix source in
  f <~ NamedTemporaryFile ;;
  in_with <~
    with_file f (
      let module_name := Py.basename (Py.drop_last3 f) in
      _ <~ f_write f source ;;
      let indices := indices_of nodes in
      source_map <~
        (if include_source_map
         then sm <~ call_create_source_map nodes source f indices ;;
              ret (Some sm)
         else ret None) ;;
      ret (module_name, source_map)) ;;
  let '(module_name, source_map) := in_with in
  _ <~ (if delete_on_exit then atexit_register f else ret tt) ;;
  compiled_nodes <~ load_source module_name f ;;
  _ <~ (if include_source_map
        then attach_source_map compiled_nodes source_map
        else ret tt) ;;
  ret (compiled_nodes, source).

(** *** One call in closed form

    The world when the [with] block is left, the world when
    [imp.load_source] has been called, and the outcome of the whole call,
    given the text [code] that [ast_to_source] returned. *)

(** The name [tempfile] hands out next, and the module name the code
    derives from it ([os.path.basename(f.name[:-3])]). *)
Definition next_path (w : world) : string := tmp_stem (w_tmp w) +:+ ".py".
Definition next_name (w : world) : string := Py.basename (tmp_stem (w_tmp w)).

Definition world_after_with (include_source_map : bool)
    (nodes : pyseq node) (source path : string) (w : world) : world :=
  World (<[path := source]> (w_disk w)) (delete path (w_open w))
        (w_atexit w) (w_modules w) (S (w_tmp w))
        (w_trace w
         ++ [EvCreate path; EvWrite path source]
         ++ (if include_source_map
             then [EvSourceMap nodes source path (indices_of nodes)]
             else [])
         ++ [EvClose path]).

Definition world_at_load (include_source_map delete_on_exit : bool)
    (nodes : pyseq node) (source path name : string) (w : world) : world :=
  World (<[path := source]> (w_disk w)) (delete path (w_open w))
        (w_atexit w ++ (if delete_on_exit then [path] else []))
        (w_modules w) (S (w_tmp w))
        (w_trace (world_after_with include_source_map nodes source path w)
         ++ (if delete_on_exit then [EvAtexit path] else [])
         ++ [EvLoad name path]).

Definition with_modules (ms : gmap string (pymodule value)) (w : world)
  : world :=
  World (w_disk w) (w_open w) (w_atexit w) ms (w_tmp w) (w_trace w).

Definition ast_to_object_closed (nodes : pyseq node) (code : string)
    (include_source_map : bool) (source_prefix : option string)
    (delete_on_exit : bool) (w : world)
  : outcome pyexn (string * string) * world :=
  let source := add_prefix source_prefix code in
  let path := next_path w in
  let name := next_name w in
  let w_with := world_after_with include_source_map nodes source path w in
  let w_load :=
    world_at_load include_source_map delete_on_exit nodes source path name w in
  let load (source_map : option value) :=
    match exec_source name path source with
    | inl e => (Raise (Raised e), w_load)
    | inr ns =>
        let loaded :=
          with_modules (<[name := Module_ name path ns]> (w_modules w))
                       w_load in
        let attached (sm : value) :=
          (Ok (name, source),
           log (EvAttach name source_map_name)
             (with_modules
                (<[name := Module_ name path
                             (<[source_map_name := sm]> ns)]>
                   (w_modules w))
                w_load)) in
        match source_map with
        | None => (Ok (name, source), loaded)
        | Some sm =>
            match ns !! source_map_name with
            | Some _ =>
                if py_debug
                then (Raise (AssertionError
                               (collision_message
                                  (module_str (Module_ name path ns))
                                  source_map_name)), loaded)
                else attached sm
            | None => attached sm
            end
        end
    end in
  if include_source_map
  then match create_source_map nodes source path (indices_of nodes) with
       | inl e => (Raise (Raised e), w_with)
       | inr sm => load (Some sm)
       end
  else load None.

(** The libraries let the call through: the file loads and leaves the
    namespace [ns]; with a source map asked for, [create_source_map] gives
    [sm] and [ns] does not hold the reserved name. *)
Definition call_succeeds (nodes : pyseq node) (source : string)
    (include_source_map : bool) (w : world) (ns : gmap string value)
    (source_map : option value) : Prop :=
  exec_source (next_name w) (next_path w) source = inr ns
  /\ match source_map with
     | Some sm =>
         include_source_map = true
         /\ create_source_map nodes source (next_path w) (indices_of nodes)
            = inr sm
         /\ ns !! source_map_name = None
     | None => include_source_map = false
     end.

(** The events of a call that returns. *)
Definition call_events (include_source_map delete_on_exit : bool)
    (nodes : pyseq node) (source path name : string) : list (event node) :=
  [EvCreate path; EvWrite path source]
  ++ (if include_source_map
      then [EvSourceMap nodes source path (indices_of nodes)] else [])
  ++ [EvClose path]
  ++ (if delete_on_exit then [EvAtexit path] else [])
  ++ [EvLoad name path]
  ++ (if include_source_map then [EvAttach name source_map_name] else []).

(** The process ends: the registered removals run. *)
Definition process_exit (w : world) : world :=
  World (foldr (fun path disk => delete path disk) (w_disk w) (w_atexit w))
        (w_open w) [] (w_modules w) (w_tmp w) (w_trace w).

End Compiler.


(** ** Vocabulary of the statements *)

(** A blank line: empty, or whitespace only ([l.rstrip()] is false). *)
Definition is_blank (l : string) : bool := negb (Py.truthy (Py.rstrip l)).

Definition all_space (l : string) : bool :=
  forallb Py.isspace (list_ascii_of_string l).

(** A line holds no line feed. *)
Definition is_line (l : string) : bool :=
  forallb (fun c => negb (Ascii.eqb c Py.LF)) (list_ascii_of_string l).

(** A file name without directory part: no ['/'] in it. *)
Definition no_slash (s : string) : bool :=
  forallb (fun c => negb (Ascii.eqb c "/"%char)) (list_ascii_of_string s).

(** The trailing [N] negative offsets: [-N], [-N+1], ..., [-1]. *)
Definition trailing_offsets (N : nat) : list Z :=
  map (fun i => (Z.of_nat i - Z.of_nat N)%Z) (seq 0 N).

(** Kinds of events, and the place of the first event of a kind. *)
Inductive event_kind : Type :=
  | KCreate | KWrite | KSourceMap | KClose | KAtexit | KLoad | KAttach.

Definition kind_of {node} (ev : event node) : event_kind :=
  match ev with
  | EvCreate _ => KCreate
  | EvWrite _ _ => KWrite
  | EvSourceMap _ _ _ _ => KSourceMap
  | EvClose _ => KClose
  | EvAtexit _ => KAtexit
  | EvLoad _ _ => KLoad
  | EvAttach _ _ => KAttach
  end.

Definition event_kind_eqb (a b : event_kind) : bool :=
  match a, b with
  | KCreate, KCreate | KWrite, KWrite | KSourceMap, KSourceMap
  | KClose, KClose | KAtexit, KAtexit | KLoad, KLoad
  | KAttach, KAttach => true
  | _, _ => false
  end.

Fixpoint first_at {node} (k : event_kind) (tr : list (event node))
  : option nat :=
  match tr with
  | [] => None
  | ev :: tr' =>
      if event_kind_eqb (kind_of ev) k then Some 0
      else match first_at k tr' with
           | Some i => Some (S i)
           | None => None
           end
  end.

(** Both kinds occur, and the first [a] comes before the first [b]. *)
Definition happens_before {node} (a b : event_kind) (tr : list (event node))
  : bool :=
  match first_at a tr, first_at b tr with
  | Some i, Some j => (i <? j)%nat
  | _, _ => false
  end.

(** The order of one call as the design document words it: creation,
    writing, loading, computing the map, attaching it. *)
Definition documented_order {node} (tr : list (event node)) : bool :=
  happens_before KCreate KWrite tr && happens_before KWrite KLoad tr
  && happens_before KLoad KSourceMap tr
  && happens_before KSourceMap KAttach tr.

(** The text a fresh generator emits for one node alone, if it knows the
    node. *)
Definition rendering {node literal gstate pyexn}
    {R : Renderer node literal gstate pyexn}
    (n : node) (indentation : string) : option string :=
  match visit (canonical n) (Generator [] (SourceGenerator indentation)) with
  | inr g => Some (text_of (result g))
  | inl _ => None
  end.


(** ** A small runtime to run the two functions on

    Nodes are lines of text and render as themselves, except the node
    ["?"], which the generator does not know; every node is a [gast.AST],
    and converting it gives the node itself.  Executing a file binds
    every non-blank line, as a name, to an object; a line that starts with
    ["!"] is a syntax error. *)

Module Demo.

Inductive demo_value : Type :=
  | Obj (defined_by : string)
  | SourceMap (source path : string) (indices : list Z).

Definition demo_visit (n : string) (g : generator Empty_set unit)
  : string + generator Empty_set unit :=
  if String.eqb n "?" then inl "unsupported node"
  else inr (result_append g (FStr n)).

#[export] Instance demo_renderer : Renderer string Empty_set unit string := {|
  str_literal := fun v : Empty_set => match v with end;
  SourceGenerator := fun _ => tt;
  visit := demo_visit;
  is_gast := fun _ => true;
  gast_to_ast := fun n => n
|}.

Definition starts_with_bang (l : string) : bool :=
  match l with
  | String c _ => Ascii.eqb c "!"%char
  | EmptyString => false
  end.

(** The random part of the [k]-th temporary name: [0], [10], [110], ... *)
Fixpoint demo_tag (k : nat) : string :=
  match k with
  | O => "0"
  | S k' => String "1"%char (demo_tag k')
  end.

Definition demo_exec (name path text : string)
  : string + gmap string demo_value :=
  let lines := Py.split_nl text in
  if existsb starts_with_bang lines then inl "SyntaxError"
  else inr (list_to_map
              (map (fun l => (l, Obj l))
                   (filter (fun l => Py.truthy (Py.rstrip l) = true) lines))).

#[export] Instance demo_host : Host string demo_value string := {|
  tmp_stem := fun k => "/tmp/tmp" +:+ demo_tag k;
  create_source_map := fun nodes source path indices =>
                         inr (SourceMap source path indices);
  exec_source := demo_exec;
  file_not_found := fun path => "No such file: " +:+ path;
  py_debug := true
|}.

(** The same libraries under [python -O]. *)
Definition demo_host_optimized : Host string demo_value string := {|
  tmp_stem := fun k => "/tmp/tmp" +:+ demo_tag k;
  create_source_map := fun nodes source path indices =>
                         inr (SourceMap source path indices);
  exec_source := demo_exec;
  file_not_found := fun path => "No such file: " +:+ path;
  py_debug := false
|}.

(** The world before anything happened. *)
Definition w0 : world string demo_value := World ∅ ∅ [] ∅ 0 [].

End Demo.

Import Demo.

(** ** A second small runtime, with nodes to convert

    A node is in the [gast] form or in the plain form, both holding a
    line of text and both a [gast.AST]; the generator renders the plain
    form only, [gast_to_ast] gives the plain form of a node.  The source
    map of an empty text cannot be built. *)

Module DemoGast.

Inductive gnode : Type :=
  | GastNode (text : string)
  | AstNode (text : string).

Definition gnode_visit (n : gnode) (g : generator Empty_set unit)
  : string + generator Empty_set unit :=
  match n with
  | GastNode _ => inl "not an ast node"
  | AstNode text => inr (result_append g (FStr text))
  end.

#[export] Instance gast_renderer : Renderer gnode Empty_set unit string := {|
  str_literal := fun v : Empty_set => match v with end;
  SourceGenerator := fun _ => tt;
  visit := gnode_visit;
  is_gast := fun _ => true;
  gast_to_ast := fun n => match n with
                          | GastNode text => AstNode text
                          | AstNode text => AstNode text
                          end
|}.

#[export] Instance gast_host : Host gnode demo_value string := {|
  tmp_stem := fun k => "/tmp/tmp" +:+ demo_tag k;
  create_source_map := fun nodes source path indices =>
                         match source with
                         | EmptyString => inl "nothing to map"
                         | _ => inr (SourceMap source path indices)
                         end;
  exec_source := demo_exec;
  file_not_found := fun path => "No such file: " +:+ path;
  py_debug := true
|}.

Definition gw0 : world gnode demo_value := World ∅ ∅ [] ∅ 0 [].

End DemoGast.

Import DemoGast.

(** * Properties *)

(** ** Lines: [split] and [join] *)

Lemma split_nl_not_nil (s : string) : Py.split_nl s <> [].
Proof.
  destruct s as [|c s]; simpl; [discriminate|].
  destruct (Ascii.eqb c Py.LF); [discriminate|].
  destruct (Py.split_nl s); discriminate.
Qed.

Lemma is_line_cons (c : ascii) (l : string) :
  is_line (String c l) = true ->
  Ascii.eqb c Py.LF = false /\ is_line l = true.
Proof.
  unfold is_line; simpl. intros Hl.
  apply andb_prop in Hl as [Hc Hl]. split; [|exact Hl].
  destruct (Ascii.eqb c Py.LF); [discriminate|reflexivity].
Qed.

(** A line followed by a line feed and more text splits off as the first
    piece. *)
Lemma split_nl_line_app (l s : string) :
  is_line l = true ->
  Py.split_nl (l +:+ Py.nl +:+ s) = l :: Py.split_nl s.
Proof.
  induction l as [|c l IH]; intros Hl.
  - reflexivity.
  - apply is_line_cons in Hl as [Hc Hl].
    change (String c l +:+ Py.nl +:+ s) with (String c (l +:+ Py.nl +:+ s)).
    cbn [Py.split_nl]. rewrite Hc, (IH Hl). reflexivity.
Qed.

Lemma split_nl_line (l : string) :
  is_line l = true -> Py.split_nl l = [l].
Proof.
  induction l as [|c l IH]; intros Hl; [reflexivity|].
  apply is_line_cons in Hl as [Hc Hl].
  cbn [Py.split_nl]. rewrite Hc, (IH Hl). reflexivity.
Qed.

(** Splitting what was joined gives the lines back. *)
Lemma split_nl_join (ls : list string) :
  ls <> [] -> Forall (fun l => is_line l = true) ls ->
  Py.split_nl (Py.join Py.nl ls) = ls.
Proof.
  induction ls as [|l ls IH]; intros Hne Hall; [congruence|].
  inversion Hall as [|? ? Hl Hls]; subst.
  destruct ls as [|l' ls].
  - simpl. apply split_nl_line, Hl.
  - change (Py.join Py.nl (l :: l' :: ls))
      with (l +:+ Py.nl +:+ Py.join Py.nl (l' :: ls)).
    rewrite split_nl_line_app by exact Hl.
    rewrite IH; [reflexivity|discriminate|exact Hls].
Qed.

(** A line is blank when all its characters are whitespace. *)
Lemma is_blank_cons (c : ascii) (l : string) :
  is_blank (String c l) = Py.isspace c && is_blank l.
Proof.
  unfold is_blank. cbn [Py.rstrip].
  destruct (Py.rstrip l); [destruct (Py.isspace c)|]; cbn;
    rewrite ?andb_true_r, ?andb_false_r; reflexivity.
Qed.

Lemma is_blank_all_space (l : string) : is_blank l = all_space l.
Proof.
  induction l as [|c l IH]; [reflexivity|].
  rewrite is_blank_cons, IH. reflexivity.
Qed.

(** ** The loop that strips the leading blank lines *)

Section SerializerFacts.
Context {node literal gstate pyexn : Type}.
Context {R : Renderer node literal gstate pyexn}.

(** Once a line was kept, every later line is kept. *)
Lemma keep_line_started (ls acc : list string) :
  acc <> [] -> fold_left keep_line ls acc = acc ++ ls.
Proof.
  revert acc. induction ls as [|l ls IH]; intros acc Hacc; simpl.
  - symmetry; apply app_nil_r.
  - unfold keep_line at 2.
    replace (Py.nonempty acc) with true
      by (destruct acc; [exfalso; apply Hacc; reflexivity | reflexivity]).
    rewrite orb_true_r, IH, <- app_assoc; [reflexivity|].
    destruct acc; discriminate.
Qed.

(** Blank lines met before any line was kept are dropped. *)
Lemma keep_line_skip_blank (blanks ls : list string) :
  Forall (fun l => is_blank l = true) blanks ->
  fold_left keep_line (blanks ++ ls) [] = fold_left keep_line ls [].
Proof.
  induction 1 as [|b blanks Hb _ IH]; [reflexivity|].
  simpl. unfold keep_line at 2. unfold is_blank in Hb.
  destruct (Py.truthy (Py.rstrip b)); [discriminate|]. simpl. exact IH.
Qed.

Lemma keep_line_from_first (blanks : list string) (L : string)
    (rest : list string) :
  Forall (fun l => is_blank l = true) blanks -> is_blank L = false ->
  fold_left keep_line (blanks ++ L :: rest) [] = L :: rest.
Proof.
  intros Hb HL. rewrite keep_line_skip_blank by exact Hb.
  simpl. unfold keep_line at 2. unfold is_blank in HL.
  destruct (Py.truthy (Py.rstrip L)); [|discriminate]. simpl.
  apply keep_line_started. discriminate.
Qed.

(** Whatever the lines, the first line kept, if any, is not blank. *)
Lemma keep_line_first_not_blank (ls : list string) :
  match fold_left keep_line ls [] with
  | [] => True
  | l :: _ => is_blank l = false
  end.
Proof.
  induction ls as [|l ls IH]; [exact I|].
  cbn [fold_left]. unfold keep_line at 2.
  destruct (Py.truthy (Py.rstrip l)) eqn:Hl; cbn [orb Py.nonempty app].
  - rewrite keep_line_started by discriminate. cbn [app].
    unfold is_blank. rewrite Hl. reflexivity.
  - exact IH.
Qed.

Lemma strip_leading_blank_lines_spec (blanks : list string) (L : string)
    (rest : list string) :
  Forall (fun l => is_blank l = true) blanks -> is_blank L = false ->
  Forall (fun l => is_line l = true) (blanks ++ L :: rest) ->
  strip_leading_blank_lines (Py.join Py.nl (blanks ++ L :: rest))
  = Py.join Py.nl (L :: rest).
Proof.
  intros Hb HL Hlines. unfold strip_leading_blank_lines.
  rewrite split_nl_join; [|destruct blanks; discriminate|exact Hlines].
  rewrite keep_line_from_first by assumption. reflexivity.
Qed.

(** C2: when the accumulated text is [N] blank lines, then a non-blank
    line [L], then the lines [rest], [ast_to_source] returns the text made
    of [L] and [rest]: it starts at [L], its first line is [L] (which is
    not blank), and the lines after [L], blank or not, are the lines of
    [rest] unchanged. *)
Theorem ast_to_source_starts_at_first_non_blank
    (node_ : pyarg node) (indentation : string)
    (blanks : list string) (L : string) (rest : list string) :
  accumulated node_ indentation = Ok (Py.join Py.nl (blanks ++ L :: rest)) ->
  Forall (fun l => is_blank l = true) blanks ->
  is_blank L = false ->
  Forall (fun l => is_line l = true) (blanks ++ L :: rest) ->
  ast_to_source node_ indentation = Ok (Py.join Py.nl (L :: rest))
  /\ Py.split_nl (Py.join Py.nl (L :: rest)) = L :: rest.
Proof.
  intros Hacc Hb HL Hlines. split.
  - unfold ast_to_source. rewrite Hacc.
    rewrite strip_leading_blank_lines_spec by assumption. reflexivity.
  - apply split_nl_join; [discriminate|].
    apply Forall_app in Hlines as [_ Hrest]. exact Hrest.
Qed.

End SerializerFacts.

Lemma ast_to_source_starts_at_first_non_blank_witness :
  ast_to_source (PSeq (SList [EmptyString; "  "; "a"; EmptyString; "b"])) "  "
  = Ok (Py.join Py.nl ["a"; EmptyString; "b"; EmptyString])
  /\ Py.split_nl (Py.join Py.nl ["a"; EmptyString; "b"; EmptyString])
     = ["a"; EmptyString; "b"; EmptyString].
Proof.
  apply (ast_to_source_starts_at_first_non_blank
           (PSeq (SList [EmptyString; "  "; "a"; EmptyString; "b"])) "  "
           [EmptyString; "  "] "a" [EmptyString; "b"; EmptyString]).
  - reflexivity.
  - repeat constructor.
  - reflexivity.
  - repeat constructor.
Defined.

(** ** Sequences of nodes *)

Lemma append_cons (c : ascii) (a b : string) :
  String c a +:+ b = String c (a +:+ b).
Proof. reflexivity. Qed.

Lemma append_nil_r (a : string) : a +:+ EmptyString = a.
Proof.
  induction a as [|c a IH]; [reflexivity|]. rewrite append_cons, IH. reflexivity.
Qed.

Lemma append_assoc (a b c : string) : (a +:+ b) +:+ c = a +:+ (b +:+ c).
Proof.
  induction a as [|x a IH]; [reflexivity|].
  rewrite !append_cons, IH. reflexivity.
Qed.

Lemma join_empty_cons (p : string) (ps : list string) :
  Py.join EmptyString (p :: ps) = p +:+ Py.join EmptyString ps.
Proof.
  destruct ps as [|q ps]; [|reflexivity].
  cbn [Py.join]. symmetry. apply append_nil_r.
Qed.

Lemma join_empty_app (l1 l2 : list string) :
  Py.join EmptyString (l1 ++ l2)
  = Py.join EmptyString l1 +:+ Py.join EmptyString l2.
Proof.
  induction l1 as [|p l1 IH]; [reflexivity|].
  change ((p :: l1) ++ l2) with (p :: (l1 ++ l2)).
  rewrite !join_empty_cons, IH, append_assoc. reflexivity.
Qed.

Section SequenceFacts.
Context {node literal gstate pyexn : Type}.
Context {R : Renderer node literal gstate pyexn}.

Lemma text_of_app (l1 l2 : list (fragment literal)) :
  text_of (l1 ++ l2) = text_of l1 +:+ text_of l2.
Proof. unfold text_of. rewrite map_app. apply join_empty_app. Qed.

Lemma text_of_nl : text_of [FStr Py.nl] = Py.nl.
Proof. reflexivity. Qed.

(** C6, as the code has it: for the sequence [A, B], the generator visits
    [A], a line feed is appended, the same generator visits [B], a line
    feed is appended; the text is what [A] gave, a line feed, what [B]
    added, a line feed, in this order, and [ast_to_source] returns it
    without its leading blank lines. *)
Theorem ast_to_source_pair_in_order
    (s : pyseq node) (A B : node) (indentation : string)
    (gA gB : generator literal gstate) (fB : list (fragment literal)) :
  items s = [A; B] ->
  visit (canonical A) (Generator [] (SourceGenerator indentation)) = inr gA ->
  visit (canonical B) (result_append gA (FStr Py.nl)) = inr gB ->
  result gB = result (result_append gA (FStr Py.nl)) ++ fB ->
  ast_to_source (PSeq s) indentation
  = Ok (strip_leading_blank_lines
          (text_of (result gA) +:+ Py.nl +:+ text_of fB +:+ Py.nl)).
Proof.
  intros Hs HA HB Hres.
  unfold ast_to_source, accumulated. cbn [as_sequence].
  rewrite Hs. cbn [visit_all]. rewrite HA, HB.
  cbn [result_append result]. rewrite Hres. cbn [result_append result].
  rewrite !text_of_app, !text_of_nl, !append_assoc. reflexivity.
Qed.

(** When what the generator emits for a node does not depend on what it
    emitted before, the two texts are those of [A] and [B] alone. *)
Lemma ast_to_source_pair_independent
    (emit : node -> list (fragment literal))
    (s : pyseq node) (A B : node) (indentation : string) :
  (forall n g, visit n g = inr (Generator (result g ++ emit n) (internals g))) ->
  items s = [A; B] ->
  rendering A indentation = Some (text_of (emit (canonical A)))
  /\ rendering B indentation = Some (text_of (emit (canonical B)))
  /\ ast_to_source (PSeq s) indentation
     = Ok (strip_leading_blank_lines
             (text_of (emit (canonical A)) +:+ Py.nl
              +:+ text_of (emit (canonical B)) +:+ Py.nl)).
Proof.
  intros Hv Hs. unfold rendering. rewrite !Hv. cbn [result app].
  split; [reflexivity|]. split; [reflexivity|].
  unfold ast_to_source, accumulated. cbn [as_sequence].
  rewrite Hs. cbn [visit_all]. rewrite (Hv (canonical A)).
  cbn [result_append result internals app]. rewrite (Hv (canonical B)).
  cbn [result_append result internals].
  rewrite !text_of_app, !text_of_nl, !append_assoc. reflexivity.
Qed.

(** C7: a single node is handled as the one-element sequence that holds
    it, by [ast_to_source] (list or tuple) and by [ast_to_object] (the
    tuple [(n,)] the code builds). *)
Theorem single_node_is_one_element_sequence
    {value : Type} {H : Host node value pyexn}
    (n : node) (indentation : string) (include_source_map : bool)
    (source_prefix : option string) (delete_on_exit : bool) :
  ast_to_source (PNode n) indentation
  = ast_to_source (PSeq (SList [n])) indentation
  /\ ast_to_source (PNode n) indentation
     = ast_to_source (PSeq (STuple [n])) indentation
  /\ ast_to_object (PNode n) indentation include_source_map source_prefix
       delete_on_exit
     = ast_to_object (PSeq (STuple [n])) indentation include_source_map
         source_prefix delete_on_exit.
Proof. repeat split. Qed.

End SequenceFacts.

(** What the code does with a pair of nodes, run: the documented
    concatenation lacks the line feed appended after the last node, with
    the renderings taken as the text the generator emits for each node;
    with the renderings taken as what [ast_to_source] returns for each
    node, it has one line feed too many. *)
Lemma ast_to_source_pair_counterexample :
  rendering "a" "  " = Some "a" /\ rendering "b" "  " = Some "b"
  /\ ast_to_source (PNode "a") "  " = Ok ("a" +:+ Py.nl)
  /\ ast_to_source (PNode "b") "  " = Ok ("b" +:+ Py.nl)
  /\ ast_to_source (PSeq (SList ["a"; "b"])) "  "
     = Ok ("a" +:+ Py.nl +:+ "b" +:+ Py.nl)
  /\ ast_to_source (PSeq (SList ["a"; "b"])) "  "
     <> Ok ("a" +:+ Py.nl +:+ "b")
  /\ ast_to_source (PSeq (SList ["a"; "b"])) "  "
     <> Ok (("a" +:+ Py.nl) +:+ Py.nl +:+ ("b" +:+ Py.nl)).
Proof. repeat split; vm_compute; congruence. Qed.

Lemma ast_to_source_pair_in_order_witness :
  ast_to_source (PSeq (SList ["a"; "b"])) "  "
  = Ok (strip_leading_blank_lines ("a" +:+ Py.nl +:+ "b" +:+ Py.nl)).
Proof.
  apply (ast_to_source_pair_in_order (SList ["a"; "b"]) "a" "b" "  "
           (Generator [FStr "a"] tt)
           (Generator [FStr "a"; FStr Py.nl; FStr "b"] tt) [FStr "b"]);
    reflexivity.
Defined.


(** ** One call of [ast_to_object] *)

Lemma length_append (a b : string) :
  String.length (a +:+ b) = String.length a + String.length b.
Proof.
  induction a as [|c a IH]; [reflexivity|].
  rewrite append_cons. cbn [String.length]. rewrite IH. reflexivity.
Qed.

Lemma substring_prefix (a b : string) :
  substring 0 (String.length a) (a +:+ b) = a.
Proof.
  induction a as [|c a IH].
  - destruct b; reflexivity.
  - rewrite append_cons. cbn [String.length substring]. rewrite IH.
    reflexivity.
Qed.

(** [name[:-3]] takes the suffix ['.py'] away. *)
Lemma drop_last3_py (stem : string) : Py.drop_last3 (stem +:+ ".py") = stem.
Proof.
  unfold Py.drop_last3. rewrite length_append.
  replace (String.length stem + String.length ".py" - 3)
    with (String.length stem) by (cbn [String.length]; lia).
  apply substring_prefix.
Qed.

Ltac world_fields :=
  cbn [w_open w_disk w_trace w_atexit w_modules w_tmp m_dict m_name m_file].

Section CompilerFacts.
Context {node literal gstate value pyexn : Type}.
Context {R : Renderer node literal gstate pyexn}.
Context {H : Host node value pyexn}.

(** Every call whose rendering succeeds runs as the closed form says. *)
Lemma ast_to_object_closed_form (nodes : pyarg node) (indentation : string)
    (include_source_map : bool) (source_prefix : option string)
    (delete_on_exit : bool) (w : world node value) (code : string) :
  ast_to_source (PSeq (as_sequence nodes)) indentation = Ok code ->
  ast_to_object nodes indentation include_source_map source_prefix
    delete_on_exit w
  = ast_to_object_closed (as_sequence nodes) code include_source_map
      source_prefix delete_on_exit w.
Proof.
  intros Hsrc.
  unfold ast_to_object, ast_to_object_closed, next_path, next_name, bind, lift.
  rewrite Hsrc.
  unfold NamedTemporaryFile, with_file, bind, f_write, call_create_source_map,
    ret, log.
  cbn beta iota zeta. world_fields. rewrite drop_last3_py.
  set (path := tmp_stem (w_tmp w) +:+ ".py").
  set (name := Py.basename (tmp_stem (w_tmp w))).
  set (source := add_prefix source_prefix code).
  assert (Hclose : forall tr : list (event node),
    f_close path
      (World (<[path := EmptyString]> (w_disk w))
             (alter (fun buf => buf +:+ source) path
                    (<[path := EmptyString]> (w_open w)))
             (w_atexit w) (w_modules w) (S (w_tmp w)) tr)
    = World (<[path := source]> (w_disk w)) (delete path (w_open w))
            (w_atexit w) (w_modules w) (S (w_tmp w)) (tr ++ [EvClose path])).
  { intros tr. unfold f_close. world_fields.
    rewrite alter_insert_eq, lookup_insert_eq, alter_insert_eq,
      delete_insert_eq. reflexivity. }
  assert (Htail : forall (sm : option value) (tr : list (event node)),
    (let (o, w') :=
       (if delete_on_exit then atexit_register path
        else fun w1 : world node value => (Ok tt, w1))
         (World (<[path := source]> (w_disk w)) (delete path (w_open w))
                (w_atexit w) (w_modules w) (S (w_tmp w)) tr) in
     match o with
     | Ok _ =>
         let (o0, w'0) := load_source name path w' in
         match o0 with
         | Ok a0 =>
             let (o1, w'1) :=
               match sm with
               | Some _ => attach_source_map a0 sm
               | None => fun w2 : world node value => (Ok tt, w2)
               end w'0 in
             match o1 with
             | Ok _ => (Ok (a0, source), w'1)
             | Raise e => (Raise e, w'1)
             end
         | Raise e => (Raise e, w'0)
         end
     | Raise e => (Raise e, w')
     end)
    = let w_load :=
        World (<[path := source]> (w_disk w)) (delete path (w_open w))
              (w_atexit w ++ (if delete_on_exit then [path] else []))
              (w_modules w) (S (w_tmp w))
              (tr ++ (if delete_on_exit then [EvAtexit path] else [])
                  ++ [EvLoad name path]) in
      match exec_source name path source with
      | inl e => (Raise (Raised e), w_load)
      | inr ns =>
          let loaded :=
            with_modules (<[name := Module_ name path ns]> (w_modules w))
                         w_load in
          let attached (sm : value) :=
            (Ok (name, source),
             log (EvAttach name source_map_name)
               (with_modules
                  (<[name := Module_ name path
                               (<[source_map_name := sm]> ns)]>
                     (w_modules w))
                  w_load)) in
          match sm with
          | None => (Ok (name, source), loaded)
          | Some sm =>
              match ns !! source_map_name with
              | Some _ =>
                  if py_debug
                  then (Raise (AssertionError
                                 (collision_message
                                    (module_str (Module_ name path ns))
                                    source_map_name)), loaded)
                  else attached sm
              | None => attached sm
              end
          end
      end).
  { intros sm tr.
    assert (Hw : forall (ax : list string) (tr' : list (event node)),
      load_source name path
        (World (<[path := source]> (w_disk w)) (delete path (w_open w))
               ax (w_modules w) (S (w_tmp w)) tr')
      = match exec_source name path source with
        | inl e =>
            (Raise (Raised e),
             World (<[path := source]> (w_disk w)) (delete path (w_open w))
                   ax (w_modules w) (S (w_tmp w))
                   (tr' ++ [EvLoad name path]))
        | inr ns =>
            (Ok name,
             World (<[path := source]> (w_disk w)) (delete path (w_open w))
                   ax (<[name := Module_ name path ns]> (w_modules w))
                   (S (w_tmp w)) (tr' ++ [EvLoad name path]))
        end).
    { intros ax tr'. unfold load_source, log. world_fields.
      rewrite lookup_insert_eq. reflexivity. }
    destruct delete_on_exit; unfold atexit_register, log; world_fields;
      rewrite Hw; cbn zeta; rewrite ?app_nil_r, <- ?app_assoc;
      destruct (exec_source name path source) as [e|ns]; try reflexivity;
      (destruct sm as [sm|]; [|reflexivity]);
      unfold attach_source_map, module_of, with_modules, log; world_fields;
      rewrite lookup_insert_eq; world_fields;
      destruct (ns !! source_map_name), py_debug; cbn [andb];
      try reflexivity;
      unfold setitem_dict, log; world_fields;
      rewrite alter_insert_eq; world_fields; reflexivity. }
  unfold world_at_load, world_after_with. world_fields.
  destruct include_source_map.
  - destruct (create_source_map _ _ _ _) as [e|sm].
    + rewrite Hclose. world_fields. rewrite <- !app_assoc. reflexivity.
    + rewrite Hclose. etransitivity; [exact (Htail (Some sm) _)|].
      cbn zeta. world_fields. rewrite <- !app_assoc. reflexivity.
  - rewrite Hclose. etransitivity; [exact (Htail None _)|].
    cbn zeta. rewrite <- !app_assoc. reflexivity.
Qed.

End CompilerFacts.

(** ** What a call does *)

Lemma range_trailing (N : nat) :
  Py.range (- Z.of_nat N) 0 = trailing_offsets N.
Proof.
  unfold Py.range, trailing_offsets, seqZ.
  replace (Z.to_nat (0 - - Z.of_nat N)) with N by lia.
  apply map_ext. intros i. lia.
Qed.

(** After the removals have run, no registered path is on the disk. *)
Lemma removed_at_exit (paths : list string) (disk : gmap string string)
    (path : string) :
  In path paths ->
  foldr (fun p d => delete p d) disk paths !! path = None.
Proof.
  induction paths as [|p paths IH]; intros Hin; [destruct Hin|].
  cbn [foldr]. destruct (decide (p = path)) as [->|Hne].
  - apply lookup_delete_eq.
  - rewrite lookup_delete_ne by exact Hne.
    destruct Hin as [Heq|Hin]; [congruence|exact (IH Hin)].
Qed.

Section Calls.
Context {node literal gstate value pyexn : Type}.
Context {R : Renderer node literal gstate pyexn}.
Context {H : Host node value pyexn}.

Lemma indices_of_trailing (s : pyseq node) :
  indices_of s = trailing_offsets (length (items s)).
Proof. unfold indices_of. cbn [isinstance_list_tuple]. apply range_trailing. Qed.

(** When the libraries let the call through, it returns the module and
    the text, and leaves this world. *)
Lemma ast_to_object_returns (nodes : pyarg node) (indentation : string)
    (include_source_map : bool) (source_prefix : option string)
    (delete_on_exit : bool) (w : world node value) (code : string)
    (ns : gmap string value) (source_map : option value) :
  ast_to_source (PSeq (as_sequence nodes)) indentation = Ok code ->
  call_succeeds (as_sequence nodes) (add_prefix source_prefix code)
    include_source_map w ns source_map ->
  exists w',
    ast_to_object nodes indentation include_source_map source_prefix
      delete_on_exit w
    = (Ok (next_name w, add_prefix source_prefix code), w')
    /\ w_trace w'
       = w_trace w
         ++ call_events include_source_map delete_on_exit (as_sequence nodes)
              (add_prefix source_prefix code) (next_path w) (next_name w)
    /\ w_modules w'
       = <[next_name w :=
             Module_ (next_name w) (next_path w)
               match source_map with
               | Some sm => <[source_map_name := sm]> ns
               | None => ns
               end]> (w_modules w)
    /\ w_atexit w'
       = w_atexit w ++ (if delete_on_exit then [next_path w] else [])
    /\ w_disk w'
       = <[next_path w := add_prefix source_prefix code]> (w_disk w).
Proof.
  intros Hsrc [Hexec Hsm].
  rewrite (ast_to_object_closed_form _ _ _ _ _ _ _ Hsrc).
  unfold ast_to_object_closed. cbn zeta. rewrite Hexec.
  destruct source_map as [sm|].
  - destruct Hsm as (-> & Hcreate & Hfree). rewrite Hcreate, Hfree.
    eexists. split; [reflexivity|].
    unfold log, with_modules, world_at_load, world_after_with, call_events.
    world_fields. rewrite <- !app_assoc. repeat split.
  - subst include_source_map. eexists. split; [reflexivity|].
    unfold log, with_modules, world_at_load, world_after_with, call_events.
    world_fields. rewrite <- !app_assoc, ?app_nil_r. repeat split.
Qed.

(** With the asserts on ([__debug__] true): when the namespace the
    loaded file leaves already holds ['ag_source_map__'], the call with
    [include_source_map] fails with the assertion error whose message
    names the module and the reserved name; the module is in
    [sys.modules] with the namespace as loading left it, the binding of
    the reserved name included, and nothing was attached. *)
Lemma collision_fails_and_keeps_namespace
    (nodes : pyarg node) (indentation : string)
    (source_prefix : option string) (delete_on_exit : bool)
    (w : world node value) (code : string) (sm v : value)
    (ns : gmap string value) :
  py_debug = true ->
  ast_to_source (PSeq (as_sequence nodes)) indentation = Ok code ->
  create_source_map (as_sequence nodes) (add_prefix source_prefix code)
    (next_path w) (indices_of (as_sequence nodes)) = inr sm ->
  exec_source (next_name w) (next_path w) (add_prefix source_prefix code)
  = inr ns ->
  ns !! source_map_name = Some v ->
  exists w',
    ast_to_object nodes indentation true source_prefix delete_on_exit w
    = (Raise (AssertionError
         ("cannot convert "
          +:+ module_str (Module_ (next_name w) (next_path w) ns)
          +:+ " because is has namespace attribute "
          +:+ dquote +:+ "ag_source_map__" +:+ dquote
          +:+ ", which is reserved for AutoGraph.")), w')
    /\ m_dict (module_of w' (next_name w)) = ns
    /\ m_dict (module_of w' (next_name w)) !! source_map_name = Some v
    /\ ~ In (EvAttach (next_name w) source_map_name)
            (drop (length (w_trace w)) (w_trace w')).
Proof.
  intros Hdebug Hsrc Hcreate Hexec Hheld.
  rewrite (ast_to_object_closed_form _ _ _ _ _ _ _ Hsrc).
  unfold ast_to_object_closed. cbn zeta.
  rewrite Hcreate, Hexec, Hheld, Hdebug.
  eexists. split; [reflexivity|].
  unfold module_of, with_modules. world_fields.
  rewrite lookup_insert_eq. world_fields.
  split; [reflexivity|]. split; [exact Hheld|].
  unfold world_at_load, world_after_with. world_fields.
  rewrite <- !app_assoc, drop_app_length. cbn [app].
  destruct delete_on_exit; cbn [app In]; intros Hin;
    repeat (destruct Hin as [Hin|Hin]; [discriminate Hin|]); exact Hin.
Qed.

(** With the asserts compiled away ([__debug__] false, [python -O]): in
    the same situation the call returns, and the binding of the reserved
    name that the file made is replaced by the source map. *)
Lemma collision_overwrites_without_asserts
    (nodes : pyarg node) (indentation : string)
    (source_prefix : option string) (delete_on_exit : bool)
    (w : world node value) (code : string) (sm v : value)
    (ns : gmap string value) :
  py_debug = false ->
  ast_to_source (PSeq (as_sequence nodes)) indentation = Ok code ->
  create_source_map (as_sequence nodes) (add_prefix source_prefix code)
    (next_path w) (indices_of (as_sequence nodes)) = inr sm ->
  exec_source (next_name w) (next_path w) (add_prefix source_prefix code)
  = inr ns ->
  ns !! source_map_name = Some v ->
  exists w',
    ast_to_object nodes indentation true source_prefix delete_on_exit w
    = (Ok (next_name w, add_prefix source_prefix code), w')
    /\ m_dict (module_of w' (next_name w)) = <[source_map_name := sm]> ns
    /\ m_dict (module_of w' (next_name w)) !! source_map_name = Some sm.
Proof.
  intros Hdebug Hsrc Hcreate Hexec Hheld.
  rewrite (ast_to_object_closed_form _ _ _ _ _ _ _ Hsrc).
  unfold ast_to_object_closed. cbn zeta.
  rewrite Hcreate, Hexec, Hheld, Hdebug.
  eexists. split; [reflexivity|].
  unfold module_of, with_modules, log. world_fields.
  rewrite lookup_insert_eq. world_fields.
  split; [reflexivity|apply lookup_insert_eq].
Qed.

(** C9: when the reserved name is free, the call returns, and the
    namespace of the module is the namespace loading left with one more
    binding: the reserved name is bound to the source map, every other
    name is bound as before, and there is exactly one binding more. *)
Theorem attachment_adds_exactly_one_binding
    (nodes : pyarg node) (indentation : string)
    (source_prefix : option string) (delete_on_exit : bool)
    (w : world node value) (code : string) (sm : value)
    (ns : gmap string value) :
  ast_to_source (PSeq (as_sequence nodes)) indentation = Ok code ->
  create_source_map (as_sequence nodes) (add_prefix source_prefix code)
    (next_path w) (indices_of (as_sequence nodes)) = inr sm ->
  exec_source (next_name w) (next_path w) (add_prefix source_prefix code)
  = inr ns ->
  ns !! source_map_name = None ->
  exists w',
    ast_to_object nodes indentation true source_prefix delete_on_exit w
    = (Ok (next_name w, add_prefix source_prefix code), w')
    /\ m_dict (module_of w' (next_name w)) !! source_map_name = Some sm
    /\ (forall k, k <> source_map_name ->
          m_dict (module_of w' (next_name w)) !! k = ns !! k)
    /\ dom (m_dict (module_of w' (next_name w)))
       = {[source_map_name]} ∪ dom ns
    /\ size (m_dict (module_of w' (next_name w))) = S (size ns).
Proof.
  intros Hsrc Hcreate Hexec Hfree.
  destruct (ast_to_object_returns nodes indentation true source_prefix
              delete_on_exit w code ns (Some sm) Hsrc)
    as (w' & Hrun & _ & Hmods & _).
  { split; [exact Hexec|]. repeat split; assumption. }
  exists w'. split; [exact Hrun|].
  unfold module_of. rewrite Hmods, lookup_insert_eq. world_fields.
  split; [apply lookup_insert_eq|].
  split; [intros k Hk; apply lookup_insert_ne; congruence|].
  split; [apply dom_insert_L|].
  apply map_size_insert_None, Hfree.
Qed.

(** C3, as the code has it: a supplied prefix that is not empty is put,
    as it is, in front of the rendered text, with one line feed between
    them; a supplied empty prefix adds nothing, line feed included.  The
    index list given to [create_source_map] is the trailing offsets of the
    nodes and does not count the prefix. *)
Theorem source_prefix_is_prepended
    (nodes : pyarg node) (indentation : string) (include_source_map : bool)
    (p : string) (delete_on_exit : bool) (w : world node value)
    (code : string) (ns : gmap string value) (source_map : option value) :
  ast_to_source (PSeq (as_sequence nodes)) indentation = Ok code ->
  call_succeeds (as_sequence nodes) (add_prefix (Some p) code)
    include_source_map w ns source_map ->
  exists source w',
    ast_to_object nodes indentation include_source_map (Some p)
      delete_on_exit w
    = (Ok (next_name w, source), w')
    /\ (p <> EmptyString -> source = p +:+ Py.nl +:+ code)
    /\ (p = EmptyString -> source = code)
    /\ (include_source_map = true ->
        drop (length (w_trace w)) (w_trace w') !! 2
        = Some (EvSourceMap (as_sequence nodes) source (next_path w)
                  (trailing_offsets (length (items (as_sequence nodes)))))).
Proof.
  intros Hsrc Hok.
  destruct (ast_to_object_returns nodes indentation include_source_map
              (Some p) delete_on_exit w code ns source_map Hsrc Hok)
    as (w' & Hrun & Htrace & _).
  exists (add_prefix (Some p) code), w'. split; [exact Hrun|].
  split; [|split].
  - intros Hp. cbn [add_prefix]. destruct p; [congruence|reflexivity].
  - intros ->. reflexivity.
  - intros ->. rewrite Htrace, drop_app_length, <- indices_of_trailing.
    reflexivity.
Qed.

(** C4, as the code has it: a call with [include_source_map] that returns
    creates the file, writes the text, computes the source map, closes
    the file, registers the removal when asked to, loads the file, and
    attaches the map; these are its events, in this order, and the file
    holds the whole text when it is loaded. *)
Theorem call_order
    (nodes : pyarg node) (indentation : string)
    (source_prefix : option string) (delete_on_exit : bool)
    (w : world node value) (code : string) (ns : gmap string value)
    (sm : value) :
  ast_to_source (PSeq (as_sequence nodes)) indentation = Ok code ->
  call_succeeds (as_sequence nodes) (add_prefix source_prefix code) true w ns
    (Some sm) ->
  exists w',
    ast_to_object nodes indentation true source_prefix delete_on_exit w
    = (Ok (next_name w, add_prefix source_prefix code), w')
    /\ w_trace w'
       = w_trace w
         ++ [EvCreate (next_path w);
             EvWrite (next_path w) (add_prefix source_prefix code);
             EvSourceMap (as_sequence nodes) (add_prefix source_prefix code)
               (next_path w) (indices_of (as_sequence nodes));
             EvClose (next_path w)]
         ++ (if delete_on_exit then [EvAtexit (next_path w)] else [])
         ++ [EvLoad (next_name w) (next_path w);
             EvAttach (next_name w) source_map_name]
    /\ w_disk w' !! next_path w = Some (add_prefix source_prefix code).
Proof.
  intros Hsrc Hok.
  destruct (ast_to_object_returns nodes indentation true source_prefix
              delete_on_exit w code ns (Some sm) Hsrc Hok)
    as (w' & Hrun & Htrace & _ & _ & Hdisk).
  exists w'. split; [exact Hrun|]. split.
  - rewrite Htrace. reflexivity.
  - rewrite Hdisk. apply lookup_insert_eq.
Qed.

(** C5: with [include_source_map], the index list that goes to
    [create_source_map] (the third event of the call) is [-N, ..., -1] for
    a sequence of [N] nodes, and [-1] alone for a single node. *)
Theorem source_map_gets_trailing_offsets
    (nodes : pyarg node) (indentation : string)
    (source_prefix : option string) (delete_on_exit : bool)
    (w : world node value) (code : string) :
  ast_to_source (PSeq (as_sequence nodes)) indentation = Ok code ->
  drop (length (w_trace w))
       (w_trace (snd (ast_to_object nodes indentation true source_prefix
                        delete_on_exit w))) !! 2
  = Some (EvSourceMap (as_sequence nodes) (add_prefix source_prefix code)
            (next_path w)
            match nodes with
            | PNode _ => [(-1)%Z]
            | PSeq s => trailing_offsets (length (items s))
            end).
Proof.
  intros Hsrc.
  rewrite (ast_to_object_closed_form _ _ _ _ _ _ _ Hsrc).
  assert (Hidx : indices_of (as_sequence nodes)
                 = match nodes with
                   | PNode _ => [(-1)%Z]
                   | PSeq s => trailing_offsets (length (items s))
                   end).
  { rewrite indices_of_trailing. destruct nodes; reflexivity. }
  rewrite <- Hidx.
  unfold ast_to_object_closed. cbn zeta.
  destruct (create_source_map _ _ _ _) as [e|sm];
    [|destruct (exec_source _ _ _) as [e|ns];
      [|destruct (ns !! source_map_name); [destruct py_debug|]]];
    cbn [snd]; unfold log, with_modules, world_at_load, world_after_with;
    world_fields; rewrite <- ?app_assoc, drop_app_length; reflexivity.
Qed.

(** C10: with [delete_on_exit], whenever the call gets as far as loading,
    the removal of the file is registered, and registered just before the
    load: it is in the registry whatever loading does, also when loading
    fails, in which case the call fails with the error of the load; at
    the end of the process the file is gone. *)
Theorem cleanup_registered_before_load
    (nodes : pyarg node) (indentation : string) (include_source_map : bool)
    (source_prefix : option string) (w : world node value) (code : string) :
  ast_to_source (PSeq (as_sequence nodes)) indentation = Ok code ->
  (include_source_map = true ->
   exists sm,
     create_source_map (as_sequence nodes) (add_prefix source_prefix code)
       (next_path w) (indices_of (as_sequence nodes)) = inr sm) ->
  exists r w' after,
    ast_to_object nodes indentation include_source_map source_prefix true w
    = (r, w')
    /\ w_trace w'
       = w_trace (world_after_with include_source_map (as_sequence nodes)
                    (add_prefix source_prefix code) (next_path w) w)
         ++ [EvAtexit (next_path w); EvLoad (next_name w) (next_path w)]
         ++ after
    /\ w_atexit w' = w_atexit w ++ [next_path w]
    /\ w_disk (process_exit w') !! next_path w = None
    /\ (forall e,
          exec_source (next_name w) (next_path w)
            (add_prefix source_prefix code) = inl e ->
          r = Raise (Raised e) /\ after = []).
Proof.
  intros Hsrc Hsm.
  rewrite (ast_to_object_closed_form _ _ _ _ _ _ _ Hsrc).
  unfold ast_to_object_closed. cbn zeta.
  assert (Hgone : forall (d : gmap string string),
            foldr (fun p d => delete p d) d (w_atexit w ++ [next_path w])
            !! next_path w = None).
  { intros d. apply removed_at_exit, in_or_app. right. left. reflexivity. }
  assert (Hdone : forall (r : outcome pyexn (string * string))
                    (ms : gmap string (pymodule value))
                    (after : list (event node)),
    (forall e,
       exec_source (next_name w) (next_path w)
         (add_prefix source_prefix code) = inl e ->
       r = Raise (Raised e) /\ after = []) ->
    exists r' w' after',
      (r, World (<[next_path w := add_prefix source_prefix code]> (w_disk w))
                (delete (next_path w) (w_open w))
                (w_atexit w ++ [next_path w]) ms (S (w_tmp w))
                (w_trace (world_after_with include_source_map
                            (as_sequence nodes)
                            (add_prefix source_prefix code) (next_path w) w)
                 ++ [EvAtexit (next_path w);
                     EvLoad (next_name w) (next_path w)]
                 ++ after))
      = (r', w')
      /\ w_trace w'
         = w_trace (world_after_with include_source_map (as_sequence nodes)
                      (add_prefix source_prefix code) (next_path w) w)
           ++ [EvAtexit (next_path w); EvLoad (next_name w) (next_path w)]
           ++ after'
      /\ w_atexit w' = w_atexit w ++ [next_path w]
      /\ w_disk (process_exit w') !! next_path w = None
      /\ (forall e,
            exec_source (next_name w) (next_path w)
              (add_prefix source_prefix code) = inl e ->
            r' = Raise (Raised e) /\ after' = [])).
  { intros r ms after Hfail. eexists r, _, after.
    split; [reflexivity|]. unfold process_exit. world_fields.
    split; [reflexivity|]. split; [reflexivity|].
    split; [apply Hgone|exact Hfail]. }
  assert (Hload : forall osm : option value,
    exists r w' after,
      match exec_source (next_name w) (next_path w)
              (add_prefix source_prefix code) with
      | inl e =>
          (Raise (Raised e),
           world_at_load include_source_map true (as_sequence nodes)
             (add_prefix source_prefix code) (next_path w) (next_name w) w)
      | inr ns =>
          match osm with
          | None =>
              (Ok (next_name w, add_prefix source_prefix code),
               with_modules
                 (<[next_name w := Module_ (next_name w) (next_path w) ns]>
                    (w_modules w))
                 (world_at_load include_source_map true (as_sequence nodes)
                    (add_prefix source_prefix code) (next_path w)
                    (next_name w) w))
          | Some sm =>
              match ns !! source_map_name with
              | Some _ =>
                  if py_debug
                  then
                    (Raise (AssertionError
                              (collision_message
                                 (module_str
                                    (Module_ (next_name w) (next_path w) ns))
                                 source_map_name)),
                     with_modules
                       (<[next_name w :=
                            Module_ (next_name w) (next_path w) ns]>
                          (w_modules w))
                       (world_at_load include_source_map true
                          (as_sequence nodes)
                          (add_prefix source_prefix code)
                          (next_path w) (next_name w) w))
                  else
                    (Ok (next_name w, add_prefix source_prefix code),
                     log (EvAttach (next_name w) source_map_name)
                       (with_modules
                          (<[next_name w :=
                               Module_ (next_name w) (next_path w)
                                 (<[source_map_name := sm]> ns)]>
                             (w_modules w))
                          (world_at_load include_source_map true
                             (as_sequence nodes)
                             (add_prefix source_prefix code) (next_path w)
                             (next_name w) w)))
              | None =>
                  (Ok (next_name w, add_prefix source_prefix code),
                   log (EvAttach (next_name w) source_map_name)
                     (with_modules
                        (<[next_name w :=
                             Module_ (next_name w) (next_path w)
                               (<[source_map_name := sm]> ns)]>
                           (w_modules w))
                        (world_at_load include_source_map true
                           (as_sequence nodes)
                           (add_prefix source_prefix code) (next_path w)
                           (next_name w) w)))
              end
          end
      end = (r, w')
      /\ w_trace w'
         = w_trace (world_after_with include_source_map (as_sequence nodes)
                      (add_prefix source_prefix code) (next_path w) w)
           ++ [EvAtexit (next_path w); EvLoad (next_name w) (next_path w)]
           ++ after
      /\ w_atexit w' = w_atexit w ++ [next_path w]
      /\ w_disk (process_exit w') !! next_path w = None
      /\ (forall e,
            exec_source (next_name w) (next_path w)
              (add_prefix source_prefix code) = inl e ->
            r = Raise (Raised e) /\ after = [])).
  { intros osm. unfold log, with_modules, world_at_load. world_fields.
    destruct (exec_source _ _ _) as [e|ns].
    - apply (Hdone _ _ []). intros e' He. split; congruence.
    - destruct osm as [sm|];
        [destruct (ns !! source_map_name); [destruct py_debug|]|].
      + apply (Hdone _ _ []). intros e' He. discriminate He.
      + rewrite <- app_assoc.
        apply (Hdone _ _ [EvAttach (next_name w) source_map_name]).
        intros e' He. discriminate He.
      + rewrite <- app_assoc.
        apply (Hdone _ _ [EvAttach (next_name w) source_map_name]).
        intros e' He. discriminate He.
      + apply (Hdone _ _ []). intros e' He. discriminate He. }
  destruct include_source_map.
  - destruct (Hsm eq_refl) as [sm ->]. apply (Hload (Some sm)).
  - apply (Hload None).
Qed.

End Calls.

(** ** The calls run *)

(** A file that binds the reserved name itself. *)
Lemma collision_fails_and_keeps_namespace_witness :
  exists w',
    ast_to_object (PSeq (SList ["ag_source_map__"; "b"])) "  " true None true
      w0
    = (Raise (AssertionError
         ("cannot convert <module 'tmp0' from '/tmp/tmp0.py'>"
          +:+ " because is has namespace attribute "
          +:+ dquote +:+ "ag_source_map__" +:+ dquote
          +:+ ", which is reserved for AutoGraph.")), w')
    /\ m_dict (module_of w' "tmp0") !! "ag_source_map__"
       = Some (Obj "ag_source_map__").
Proof.
  destruct (collision_fails_and_keeps_namespace
              (PSeq (SList ["ag_source_map__"; "b"])) "  " None true w0
              ("ag_source_map__" +:+ Py.nl +:+ "b" +:+ Py.nl)
              (SourceMap ("ag_source_map__" +:+ Py.nl +:+ "b" +:+ Py.nl)
                 "/tmp/tmp0.py" [(-2)%Z; (-1)%Z])
              (Obj "ag_source_map__")
              (<["ag_source_map__" := Obj "ag_source_map__"]>
                 (<["b" := Obj "b"]> ∅)))
    as (w' & Hrun & _ & Hkept & _).
  - reflexivity.
  - reflexivity.
  - reflexivity.
  - vm_compute. reflexivity.
  - vm_compute. reflexivity.
  - exists w'. vm_compute in Hrun, Hkept |- *. split; [exact Hrun|exact Hkept].
Defined.

(** C1, on the code run under [python -O]: the file binds
    ['ag_source_map__'] itself and is compiled with [include_source_map];
    the assert being compiled away, the call raises nothing, it returns,
    and the binding the file made is replaced by the source map. *)
Theorem collision_overwrites_binding_under_optimize :
  demo_exec "tmp0" "/tmp/tmp0.py" ("ag_source_map__" +:+ Py.nl +:+ "b" +:+ Py.nl)
  = inr (<["ag_source_map__" := Obj "ag_source_map__"]>
           (<["b" := Obj "b"]> ∅))
  /\ exists w',
       ast_to_object (H := demo_host_optimized)
         (PSeq (SList ["ag_source_map__"; "b"])) "  " true None true w0
       = (Ok ("tmp0", "ag_source_map__" +:+ Py.nl +:+ "b" +:+ Py.nl), w')
       /\ m_dict (module_of w' "tmp0") !! "ag_source_map__"
          = Some (SourceMap ("ag_source_map__" +:+ Py.nl +:+ "b" +:+ Py.nl)
                    "/tmp/tmp0.py" [(-2)%Z; (-1)%Z]).
Proof.
  split; [vm_compute; reflexivity|].
  destruct (collision_overwrites_without_asserts (H := demo_host_optimized)
              (PSeq (SList ["ag_source_map__"; "b"])) "  " None true w0
              ("ag_source_map__" +:+ Py.nl +:+ "b" +:+ Py.nl)
              (SourceMap ("ag_source_map__" +:+ Py.nl +:+ "b" +:+ Py.nl)
                 "/tmp/tmp0.py" [(-2)%Z; (-1)%Z])
              (Obj "ag_source_map__")
              (<["ag_source_map__" := Obj "ag_source_map__"]>
                 (<["b" := Obj "b"]> ∅)))
    as (w' & Hrun & _ & Hmap).
  - reflexivity.
  - reflexivity.
  - reflexivity.
  - vm_compute. reflexivity.
  - vm_compute. reflexivity.
  - exists w'. vm_compute in Hrun, Hmap |- *. split; [exact Hrun|exact Hmap].
Qed.

Lemma attachment_adds_exactly_one_binding_witness :
  exists w',
    ast_to_object (PNode "x") "  " true (Some "pre") false w0
    = (Ok ("tmp0", "pre" +:+ Py.nl +:+ "x" +:+ Py.nl), w')
    /\ m_dict (module_of w' "tmp0") !! "ag_source_map__"
       = Some (SourceMap ("pre" +:+ Py.nl +:+ "x" +:+ Py.nl) "/tmp/tmp0.py"
                 [(-1)%Z])
    /\ m_dict (module_of w' "tmp0") !! "x" = Some (Obj "x")
    /\ size (m_dict (module_of w' "tmp0")) = 3.
Proof.
  destruct (attachment_adds_exactly_one_binding
              (PNode "x") "  " (Some "pre") false w0 ("x" +:+ Py.nl)
              (SourceMap ("pre" +:+ Py.nl +:+ "x" +:+ Py.nl) "/tmp/tmp0.py"
                 [(-1)%Z])
              (<["pre" := Obj "pre"]> (<["x" := Obj "x"]> ∅)))
    as (w' & Hrun & Hmap & Hother & _ & Hsize).
  - reflexivity.
  - reflexivity.
  - vm_compute. reflexivity.
  - vm_compute. reflexivity.
  - exists w'. pose proof (Hother "x" ltac:(discriminate)) as Hx.
    vm_compute in Hrun, Hmap, Hx, Hsize |- *.
    split; [exact Hrun|]. split; [exact Hmap|]. split; [exact Hx|exact Hsize].
Defined.

(** An empty prefix: the text that comes back is the rendered text, not a
    line feed followed by it. *)
Lemma empty_prefix_counterexample :
  ast_to_source (PNode "x") "  " = Ok ("x" +:+ Py.nl)
  /\ fst (ast_to_object (PNode "x") "  " false (Some EmptyString) true w0)
     = Ok ("tmp0", "x" +:+ Py.nl)
  /\ fst (ast_to_object (PNode "x") "  " false (Some EmptyString) true w0)
     <> Ok ("tmp0", EmptyString +:+ Py.nl +:+ ("x" +:+ Py.nl)).
Proof. repeat split; vm_compute; congruence. Qed.

Lemma source_prefix_is_prepended_witness :
  exists source w',
    ast_to_object (PSeq (STuple ["a"; "b"])) "  " true (Some "import tf")
      true w0
    = (Ok ("tmp0", source), w')
    /\ source = "import tf" +:+ Py.nl +:+ ("a" +:+ Py.nl +:+ "b" +:+ Py.nl)
    /\ drop 0 (w_trace w') !! 2
       = Some (EvSourceMap (STuple ["a"; "b"]) source "/tmp/tmp0.py"
                 [(-2)%Z; (-1)%Z]).
Proof.
  destruct (source_prefix_is_prepended
              (PSeq (STuple ["a"; "b"])) "  " true "import tf" true w0
              ("a" +:+ Py.nl +:+ "b" +:+ Py.nl)
              (<["import tf" := Obj "import tf"]>
                 (<["a" := Obj "a"]> (<["b" := Obj "b"]> ∅)))
              (Some (SourceMap
                       ("import tf" +:+ Py.nl
                        +:+ ("a" +:+ Py.nl +:+ "b" +:+ Py.nl))
                       "/tmp/tmp0.py" [(-2)%Z; (-1)%Z])))
    as (source & w' & Hrun & Hsome & _ & Hidx).
  - reflexivity.
  - split; [vm_compute; reflexivity|].
    split; [reflexivity|]. split; vm_compute; reflexivity.
  - exists source, w'.
    pose proof (Hsome ltac:(discriminate)) as Htext.
    pose proof (Hidx eq_refl) as Hev.
    vm_compute in Hrun, Htext, Hev |- *.
    split; [exact Hrun|]. split; [exact Htext|exact Hev].
Defined.

(** A call that returns: the source map is computed before the file is
    loaded, not after. *)
Lemma documented_order_counterexample :
  fst (ast_to_object (PNode "x") "  " true None true w0)
  = Ok ("tmp0", "x" +:+ Py.nl)
  /\ w_trace (snd (ast_to_object (PNode "x") "  " true None true w0))
     = [EvCreate "/tmp/tmp0.py";
        EvWrite "/tmp/tmp0.py" ("x" +:+ Py.nl);
        EvSourceMap (STuple ["x"]) ("x" +:+ Py.nl) "/tmp/tmp0.py" [(-1)%Z];
        EvClose "/tmp/tmp0.py";
        EvAtexit "/tmp/tmp0.py";
        EvLoad "tmp0" "/tmp/tmp0.py";
        EvAttach "tmp0" "ag_source_map__"]
  /\ documented_order
       (w_trace (snd (ast_to_object (PNode "x") "  " true None true w0)))
     = false
  /\ happens_before KSourceMap KLoad
       (w_trace (snd (ast_to_object (PNode "x") "  " true None true w0)))
     = true.
Proof. repeat split; vm_compute; reflexivity. Qed.

Lemma call_order_witness :
  exists w',
    ast_to_object (PNode "x") "  " true None true w0
    = (Ok ("tmp0", "x" +:+ Py.nl), w')
    /\ w_trace w'
       = [EvCreate "/tmp/tmp0.py";
          EvWrite "/tmp/tmp0.py" ("x" +:+ Py.nl);
          EvSourceMap (STuple ["x"]) ("x" +:+ Py.nl) "/tmp/tmp0.py" [(-1)%Z];
          EvClose "/tmp/tmp0.py";
          EvAtexit "/tmp/tmp0.py";
          EvLoad "tmp0" "/tmp/tmp0.py";
          EvAttach "tmp0" "ag_source_map__"]
    /\ w_disk w' !! "/tmp/tmp0.py" = Some ("x" +:+ Py.nl).
Proof.
  destruct (call_order (PNode "x") "  " None true w0 ("x" +:+ Py.nl)
              (<["x" := Obj "x"]> ∅)
              (SourceMap ("x" +:+ Py.nl) "/tmp/tmp0.py" [(-1)%Z]))
    as (w' & Hrun & Htrace & Hdisk).
  - reflexivity.
  - split; [vm_compute; reflexivity|].
    split; [reflexivity|]. split; vm_compute; reflexivity.
  - exists w'. vm_compute in Hrun, Htrace, Hdisk |- *.
    split; [exact Hrun|]. split; [exact Htrace|exact Hdisk].
Defined.

Lemma source_map_gets_trailing_offsets_witness :
  w_trace (snd (ast_to_object (PSeq (SList ["a"; "b"; "c"])) "  " true None
                  true w0)) !! 2
  = Some (EvSourceMap (SList ["a"; "b"; "c"])
            ("a" +:+ Py.nl +:+ "b" +:+ Py.nl +:+ "c" +:+ Py.nl)
            "/tmp/tmp0.py" [(-3)%Z; (-2)%Z; (-1)%Z])
  /\ w_trace (snd (ast_to_object (PNode "a") "  " true None true w0)) !! 2
     = Some (EvSourceMap (STuple ["a"]) ("a" +:+ Py.nl) "/tmp/tmp0.py"
               [(-1)%Z]).
Proof.
  pose proof (source_map_gets_trailing_offsets
                (PSeq (SList ["a"; "b"; "c"])) "  " None true w0
                ("a" +:+ Py.nl +:+ "b" +:+ Py.nl +:+ "c" +:+ Py.nl) eq_refl)
    as Hseq.
  pose proof (source_map_gets_trailing_offsets
                (PNode "a") "  " None true w0 ("a" +:+ Py.nl) eq_refl)
    as Hone.
  vm_compute in Hseq, Hone |- *. split; [exact Hseq|exact Hone].
Defined.

(** A file that does not load: the removal is registered all the same. *)
Lemma cleanup_registered_before_load_witness :
  exists w',
    ast_to_object (PNode "!boom") "  " false None true w0
    = (Raise (Raised "SyntaxError"), w')
    /\ w_trace w'
       = [EvCreate "/tmp/tmp0.py";
          EvWrite "/tmp/tmp0.py" ("!boom" +:+ Py.nl);
          EvClose "/tmp/tmp0.py";
          EvAtexit "/tmp/tmp0.py";
          EvLoad "tmp0" "/tmp/tmp0.py"]
    /\ w_atexit w' = ["/tmp/tmp0.py"]
    /\ w_disk (process_exit w') !! "/tmp/tmp0.py" = None.
Proof.
  destruct (cleanup_registered_before_load
              (PNode "!boom") "  " false None w0 ("!boom" +:+ Py.nl))
    as (r & w' & after & Hrun & Htrace & Hreg & Hgone & Hfail).
  - reflexivity.
  - discriminate.
  - destruct (Hfail "SyntaxError") as [-> ->]; [vm_compute; reflexivity|].
    exists w'. vm_compute in Hrun, Htrace, Hreg, Hgone |- *.
    split; [exact Hrun|]. split; [exact Htrace|].
    split; [exact Hreg|exact Hgone].
Defined.

(** * Further properties of [ast_to_source] *)

Lemma join_cons_cons (sep p q : string) (r : list string) :
  Py.join sep (p :: q :: r) = p +:+ sep +:+ Py.join sep (q :: r).
Proof. reflexivity. Qed.

(** Every piece that [split] gives is a line. *)
Lemma split_nl_lines (s : string) :
  Forall (fun l => is_line l = true) (Py.split_nl s).
Proof.
  induction s as [|c s IH]; [repeat constructor|].
  cbn [Py.split_nl]. destruct (Ascii.eqb c Py.LF) eqn:Hc.
  - constructor; [reflexivity|exact IH].
  - destruct (Py.split_nl s) as [|l ls]; [repeat constructor; unfold is_line;
      cbn; rewrite Hc; reflexivity|].
    inversion IH as [|? ? Hl Hls]; subst. constructor; [|exact Hls].
    unfold is_line in *. cbn. rewrite Hc. exact Hl.
Qed.

(** Joining what was split gives the text back. *)
Lemma join_split_nl (s : string) : Py.join Py.nl (Py.split_nl s) = s.
Proof.
  induction s as [|c s IH]; [reflexivity|].
  cbn [Py.split_nl]. destruct (Ascii.eqb c Py.LF) eqn:Hc.
  - apply Ascii.eqb_eq in Hc. subst c.
    destruct (Py.split_nl s) as [|l ls] eqn:Hs;
      [exfalso; exact (split_nl_not_nil s Hs)|].
    rewrite join_cons_cons, IH. reflexivity.
  - destruct (Py.split_nl s) as [|l ls] eqn:Hs;
      [exfalso; exact (split_nl_not_nil s Hs)|].
    destruct ls as [|l' ls].
    + cbn [Py.join] in *. rewrite IH. reflexivity.
    + rewrite join_cons_cons in *. rewrite append_cons, IH. reflexivity.
Qed.

Lemma split_nl_snoc (t : string) :
  Py.split_nl (t +:+ Py.nl) = Py.split_nl t ++ [EmptyString].
Proof.
  induction t as [|c t IH]; [reflexivity|].
  rewrite append_cons. cbn [Py.split_nl]. rewrite IH.
  destruct (Ascii.eqb c Py.LF); [reflexivity|].
  destruct (Py.split_nl t) as [|l ls] eqn:Hs;
    [exfalso; exact (split_nl_not_nil t Hs)|reflexivity].
Qed.

Lemma join_snoc_empty (ls : list string) :
  ls <> [] ->
  Py.join Py.nl (ls ++ [EmptyString]) = Py.join Py.nl ls +:+ Py.nl.
Proof.
  induction ls as [|l ls IH]; intros Hne; [congruence|].
  destruct ls as [|l' ls].
  - cbn [app]. rewrite join_cons_cons. reflexivity.
  - change ((l :: l' :: ls) ++ [EmptyString])
      with (l :: l' :: (ls ++ [EmptyString])).
    rewrite !join_cons_cons.
    change (l' :: ls ++ [EmptyString]) with ((l' :: ls) ++ [EmptyString]).
    rewrite IH by discriminate. rewrite !append_assoc. reflexivity.
Qed.

(** The lines kept are the lines given without a first run of blank
    lines. *)
Lemma keep_line_suffix (ls : list string) :
  exists blanks,
    ls = blanks ++ fold_left keep_line ls []
    /\ Forall (fun l => is_blank l = true) blanks.
Proof.
  induction ls as [|l ls (blanks & Heq & Hb)]; [exists []; split; constructor|].
  cbn [fold_left]. unfold keep_line at 2.
  destruct (Py.truthy (Py.rstrip l)) eqn:Hl; cbn [orb Py.nonempty app].
  - exists []. rewrite keep_line_started by discriminate.
    split; [reflexivity|constructor].
  - exists (l :: blanks). split.
    + cbn [app]. f_equal. exact Heq.
    + constructor; [unfold is_blank; rewrite Hl; reflexivity|exact Hb].
Qed.

Lemma keep_line_all_blank (ls : list string) :
  Forall (fun l => is_blank l = true) ls -> fold_left keep_line ls [] = [].
Proof.
  intros Hb. rewrite <- (app_nil_r ls).
  rewrite keep_line_skip_blank by exact Hb. reflexivity.
Qed.

(** The lines kept are lines, and the first of them is not blank, so that
    stripping them again keeps them all. *)
Lemma keep_line_fixed (ls : list string) :
  fold_left keep_line (fold_left keep_line ls []) [] = fold_left keep_line ls [].
Proof.
  pose proof (keep_line_first_not_blank ls) as Hfirst.
  destruct (fold_left keep_line ls []) as [|L rest]; [reflexivity|].
  apply (keep_line_from_first [] L rest); [constructor|exact Hfirst].
Qed.

Lemma kept_lines (ls : list string) :
  Forall (fun l => is_line l = true) ls ->
  Forall (fun l => is_line l = true) (fold_left keep_line ls []).
Proof.
  intros Hl. destruct (keep_line_suffix ls) as (blanks & Heq & _).
  rewrite Heq in Hl. apply Forall_app in Hl as [_ Hl]. exact Hl.
Qed.

Section SerializerMore.
Context {node literal gstate pyexn : Type}.
Context {R : Renderer node literal gstate pyexn}.

(** X1: the text [ast_to_source] returns is empty, or its first line is
    not blank: no text it returns begins with a blank line. *)
Theorem ast_to_source_no_leading_blank_line
    (node_ : pyarg node) (indentation text : string) :
  ast_to_source node_ indentation = Ok text ->
  text = EmptyString
  \/ exists L rest,
       Py.split_nl text = L :: rest /\ is_blank L = false.
Proof.
  unfold ast_to_source. destruct (accumulated node_ indentation) as [code|e];
    [|discriminate].
  intros Heq. injection Heq as <-. unfold strip_leading_blank_lines.
  pose proof (keep_line_first_not_blank (Py.split_nl code)) as Hfirst.
  pose proof (kept_lines _ (split_nl_lines code)) as Hlines.
  destruct (fold_left keep_line (Py.split_nl code) []) as [|L rest];
    [left; reflexivity|right].
  exists L, rest. split; [|exact Hfirst].
  apply split_nl_join; [discriminate|exact Hlines].
Qed.

(** X2: stripping the leading blank lines of a text that [ast_to_source]
    returned changes nothing. *)
Theorem ast_to_source_result_is_stripped
    (node_ : pyarg node) (indentation text : string) :
  ast_to_source node_ indentation = Ok text ->
  strip_leading_blank_lines text = text.
Proof.
  unfold ast_to_source. destruct (accumulated node_ indentation) as [code|e];
    [|discriminate].
  intros Heq. injection Heq as <-. unfold strip_leading_blank_lines.
  pose proof (kept_lines _ (split_nl_lines code)) as Hlines.
  pose proof (keep_line_fixed (Py.split_nl code)) as Hfix.
  destruct (fold_left keep_line (Py.split_nl code) []) as [|L rest] eqn:Hk;
    [reflexivity|].
  rewrite split_nl_join by (discriminate || exact Hlines).
  rewrite Hfix. reflexivity.
Qed.

(** X3: when the first line of the accumulated text is not blank,
    [ast_to_source] returns the accumulated text as it is. *)
Theorem ast_to_source_keeps_text_without_leading_blank
    (node_ : pyarg node) (indentation code L : string) (rest : list string) :
  accumulated node_ indentation = Ok code ->
  Py.split_nl code = L :: rest ->
  is_blank L = false ->
  ast_to_source node_ indentation = Ok code.
Proof.
  intros Hacc Hsplit HL. unfold ast_to_source. rewrite Hacc. f_equal.
  unfold strip_leading_blank_lines. rewrite Hsplit.
  pose proof (keep_line_from_first [] L rest ltac:(constructor) HL) as Hkeep.
  cbn [app] in Hkeep. rewrite Hkeep, <- Hsplit. apply join_split_nl.
Qed.

(** X4: when every line of the accumulated text is blank, [ast_to_source]
    returns the empty text. *)
Theorem ast_to_source_all_blank
    (node_ : pyarg node) (indentation code : string) :
  accumulated node_ indentation = Ok code ->
  Forall (fun l => is_blank l = true) (Py.split_nl code) ->
  ast_to_source node_ indentation = Ok EmptyString.
Proof.
  intros Hacc Hb. unfold ast_to_source. rewrite Hacc.
  unfold strip_leading_blank_lines. rewrite keep_line_all_blank by exact Hb.
  reflexivity.
Qed.

(** X5: an empty list or tuple of nodes gives the empty text, whatever the
    generator and the indentation. *)
Theorem ast_to_source_no_nodes (s : pyseq node) (indentation : string) :
  items s = [] -> ast_to_source (PSeq s) indentation = Ok EmptyString.
Proof.
  intros Hs. unfold ast_to_source, accumulated. cbn [as_sequence].
  rewrite Hs. reflexivity.
Qed.

End SerializerMore.

Section SequencesMore.
Context {node literal gstate pyexn : Type}.
Context {R : Renderer node literal gstate pyexn}.

(** Visiting a sequence made of two parts is visiting the first part and
    going on with the second, with the same generator. *)
Lemma visit_all_app (xs ys : list node) (g : generator literal gstate) :
  visit_all (xs ++ ys) g
  = match visit_all xs g with
    | inl e => inl e
    | inr g' => visit_all ys g'
    end.
Proof.
  revert g. induction xs as [|x xs IH]; intros g; [reflexivity|].
  cbn [app visit_all]. destruct (visit (canonical x) g) as [e|g'];
    [reflexivity|apply IH].
Qed.

(** After the last node a line feed was appended. *)
Lemma visit_all_ends_with_nl (ns : list node)
    (g g' : generator literal gstate) :
  ns <> [] -> visit_all ns g = inr g' ->
  exists fs, result g' = fs ++ [FStr Py.nl].
Proof.
  revert g. induction ns as [|n ns IH]; intros g Hne Hrun; [congruence|].
  cbn [visit_all] in Hrun.
  destruct (visit (canonical n) g) as [e|g1]; [discriminate|].
  destruct ns as [|n' ns].
  - cbn [visit_all] in Hrun. injection Hrun as <-.
    exists (result g1). reflexivity.
  - apply (IH (result_append g1 (FStr Py.nl))); [discriminate|exact Hrun].
Qed.

(** X6: for a sequence that is not empty, the text [ast_to_source] returns
    is empty or ends with a line feed. *)
Theorem ast_to_source_ends_with_newline
    (s : pyseq node) (indentation text : string) :
  items s <> [] ->
  ast_to_source (PSeq s) indentation = Ok text ->
  text = EmptyString \/ exists t, text = t +:+ Py.nl.
Proof.
  intros Hne. unfold ast_to_source, accumulated. cbn [as_sequence].
  destruct (visit_all (items s) _) as [e|g] eqn:Hrun; [discriminate|].
  destruct (visit_all_ends_with_nl _ _ _ Hne Hrun) as [fs Hfs].
  intros Heq. injection Heq as <-.
  rewrite Hfs, text_of_app, text_of_nl.
  unfold strip_leading_blank_lines. rewrite split_nl_snoc.
  destruct (keep_line_suffix (Py.split_nl (text_of fs) ++ [EmptyString]))
    as (blanks & Heq & _).
  pose proof (keep_line_first_not_blank
                (Py.split_nl (text_of fs) ++ [EmptyString])) as Hfirst.
  destruct (fold_left keep_line (Py.split_nl (text_of fs) ++ [EmptyString]) [])
    as [|L rest]; [left; reflexivity|right].
  destruct (exists_last (l := L :: rest)) as (kept & last & Hlast);
    [discriminate|].
  rewrite Hlast in Heq |- *. rewrite app_assoc in Heq.
  apply app_inj_tail in Heq as [_ <-].
  exists (Py.join Py.nl kept). apply join_snoc_empty.
  intros ->. cbn [app] in Hlast. injection Hlast as -> _.
  discriminate Hfirst.
Qed.

(** With a generator that adds to its result the fragments [emit n] of
    the node it visits, the result after a sequence holds the fragments
    of each node and a line feed, in the order of the sequence. *)
Lemma visit_all_emit (emit : node -> list (fragment literal))
    (ns : list node) (g : generator literal gstate) :
  (forall n g, In n ns ->
     visit (canonical n) g
     = inr (Generator (result g ++ emit (canonical n)) (internals g))) ->
  visit_all ns g
  = inr (Generator
           (result g
            ++ flat_map (fun n => emit (canonical n) ++ [FStr Py.nl]) ns)
           (internals g)).
Proof.
  revert g. induction ns as [|n ns IH]; intros g Hv.
  - cbn [visit_all flat_map]. rewrite app_nil_r. destruct g; reflexivity.
  - cbn [visit_all flat_map]. rewrite (Hv n g) by apply in_eq.
    rewrite IH by (intros n' g' Hin; apply Hv, in_cons, Hin).
    unfold result_append. cbn [result internals].
    rewrite <- !app_assoc. reflexivity.
Qed.

Lemma text_of_flat_map (emit : node -> list (fragment literal))
    (ns : list node) :
  text_of (flat_map (fun n => emit n ++ [FStr Py.nl]) ns)
  = Py.join EmptyString (map (fun n => text_of (emit n) +:+ Py.nl) ns).
Proof.
  induction ns as [|n ns IH]; [reflexivity|].
  cbn [flat_map map]. rewrite join_empty_cons, !text_of_app, text_of_nl, IH.
  reflexivity.
Qed.

(** X7: with such a generator, the text of a sequence of any length is
    the texts of its nodes, each followed by a line feed, one after the
    other in the order of the sequence, and [ast_to_source] returns it
    without its leading blank lines. *)
Theorem ast_to_source_concatenates_in_order
    (emit : node -> list (fragment literal)) (s : pyseq node)
    (indentation : string) :
  (forall n g, In n (items s) ->
     visit (canonical n) g
     = inr (Generator (result g ++ emit (canonical n)) (internals g))) ->
  ast_to_source (PSeq s) indentation
  = Ok (strip_leading_blank_lines
          (Py.join EmptyString
             (map (fun n => text_of (emit (canonical n)) +:+ Py.nl)
                  (items s)))).
Proof.
  intros Hv. unfold ast_to_source, accumulated. cbn [as_sequence].
  rewrite (visit_all_emit emit) by exact Hv. cbn [result app].
  rewrite (text_of_flat_map (fun n => emit (canonical n))). reflexivity.
Qed.

(** X8: the error of the first node that the generator refuses is the
    error [ast_to_source] raises, whatever nodes follow it. *)
Theorem ast_to_source_first_error
    (s : pyseq node) (xs : list node) (n : node) (ys : list node)
    (indentation : string) (g : generator literal gstate) (e : pyexn) :
  items s = xs ++ n :: ys ->
  visit_all xs (Generator [] (SourceGenerator indentation)) = inr g ->
  visit (canonical n) g = inl e ->
  ast_to_source (PSeq s) indentation = Raise (Raised e).
Proof.
  intros Hs Hxs Hn. unfold ast_to_source, accumulated. cbn [as_sequence].
  rewrite Hs, visit_all_app, Hxs. cbn [visit_all]. rewrite Hn. reflexivity.
Qed.

End SequencesMore.

(** * Further properties of [ast_to_object] *)

(** A path that is not registered is not removed at the end of the
    process. *)
Lemma kept_at_exit (paths : list string) (disk : gmap string string)
    (path : string) :
  ~ In path paths ->
  foldr (fun p d => delete p d) disk paths !! path = disk !! path.
Proof.
  induction paths as [|p paths IH]; intros Hnot; [reflexivity|].
  cbn [foldr]. rewrite lookup_delete_ne.
  - apply IH. intros Hin. apply Hnot, in_cons, Hin.
  - intros ->. apply Hnot, in_eq.
Qed.

Lemma basename_from_no_slash (acc b : string) :
  no_slash b = true -> Py.basename_from acc b = acc +:+ b.
Proof.
  revert acc. induction b as [|c b IH]; intros acc Hb.
  - cbn [Py.basename_from]. symmetry. apply append_nil_r.
  - unfold no_slash in Hb. cbn in Hb. apply andb_prop in Hb as [Hc Hb].
    cbn [Py.basename_from].
    destruct (Ascii.eqb c "/"%char); [discriminate|].
    rewrite (IH _ Hb), append_assoc. reflexivity.
Qed.

Lemma basename_from_dir (acc dir b : string) :
  Py.basename_from acc (dir +:+ "/" +:+ b)
  = Py.basename_from EmptyString b.
Proof.
  revert acc. induction dir as [|c dir IH]; intros acc.
  - reflexivity.
  - rewrite append_cons. cbn [Py.basename_from].
    destruct (Ascii.eqb c "/"%char); apply IH.
Qed.

Section CallsMore.
Context {node literal gstate value pyexn : Type}.
Context {R : Renderer node literal gstate pyexn}.
Context {H : Host node value pyexn}.


(** Without its text a call does nothing. *)
Lemma ast_to_object_without_text (nodes : pyarg node) (indentation : string)
    (include_source_map : bool) (source_prefix : option string)
    (delete_on_exit : bool) (w : world node value) (e : exn pyexn) :
  ast_to_source (PSeq (as_sequence nodes)) indentation = Raise e ->
  ast_to_object nodes indentation include_source_map source_prefix
    delete_on_exit w = (Raise e, w).
Proof.
  intros Hsrc. unfold ast_to_object, bind, lift. rewrite Hsrc. reflexivity.
Qed.


(** X10: when rendering fails, [ast_to_object] fails with the same error
    and leaves the world as it was: no file, no registration, no module,
    no event. *)
Theorem render_error_leaves_world
    (nodes : pyarg node) (indentation : string) (include_source_map : bool)
    (source_prefix : option string) (delete_on_exit : bool)
    (w : world node value) (e : exn pyexn) :
  ast_to_source (PSeq (as_sequence nodes)) indentation = Raise e ->
  ast_to_object nodes indentation include_source_map source_prefix
    delete_on_exit w = (Raise e, w).
Proof.
  apply ast_to_object_without_text.
Qed.


End CallsMore.

Section CallsErrors.
Context {node literal gstate value pyexn : Type}.
Context {R : Renderer node literal gstate pyexn}.
Context {H : Host node value pyexn}.

(** X13: when [create_source_map] fails, the call fails with its error
    after the file was written and closed; nothing is loaded, and the
    removal of the file is not registered, [delete_on_exit] or not: the
    file is still there when the process has ended. *)
Theorem source_map_error_leaves_file
    (nodes : pyarg node) (indentation : string)
    (source_prefix : option string) (delete_on_exit : bool)
    (w : world node value) (code : string) (e : pyexn) :
  ast_to_source (PSeq (as_sequence nodes)) indentation = Ok code ->
  create_source_map (as_sequence nodes) (add_prefix source_prefix code)
    (next_path w) (indices_of (as_sequence nodes)) = inl e ->
  ~ In (next_path w) (w_atexit w) ->
  exists w',
    ast_to_object nodes indentation true source_prefix delete_on_exit w
    = (Raise (Raised e), w')
    /\ w_trace w'
       = w_trace w
         ++ [EvCreate (next_path w);
             EvWrite (next_path w) (add_prefix source_prefix code);
             EvSourceMap (as_sequence nodes) (add_prefix source_prefix code)
               (next_path w) (indices_of (as_sequence nodes));
             EvClose (next_path w)]
    /\ w_atexit w' = w_atexit w
    /\ w_modules w' = w_modules w
    /\ w_disk (process_exit w') !! next_path w
       = Some (add_prefix source_prefix code).
Proof.
  intros Hsrc Hcreate Hnot.
  rewrite (ast_to_object_closed_form _ _ _ _ _ _ _ Hsrc).
  unfold ast_to_object_closed. cbn zeta. rewrite Hcreate.
  eexists. split; [reflexivity|].
  unfold process_exit, world_after_with. world_fields.
  split; [reflexivity|]. split; [reflexivity|]. split; [reflexivity|].
  rewrite kept_at_exit by exact Hnot. apply lookup_insert_eq.
Qed.

(** X14: without [include_source_map] the reserved name is not looked at:
    the call returns whatever names the file binds, the reserved one
    included; the namespace is the one loading left, and
    [create_source_map] is not called. *)
Theorem without_source_map_no_check
    (nodes : pyarg node) (indentation : string)
    (source_prefix : option string) (delete_on_exit : bool)
    (w : world node value) (code : string) (ns : gmap string value) :
  ast_to_source (PSeq (as_sequence nodes)) indentation = Ok code ->
  exec_source (next_name w) (next_path w) (add_prefix source_prefix code)
  = inr ns ->
  exists w',
    ast_to_object nodes indentation false source_prefix delete_on_exit w
    = (Ok (next_name w, add_prefix source_prefix code), w')
    /\ m_dict (module_of w' (next_name w)) = ns
    /\ w_trace w'
       = w_trace w
         ++ [EvCreate (next_path w);
             EvWrite (next_path w) (add_prefix source_prefix code);
             EvClose (next_path w)]
         ++ (if delete_on_exit then [EvAtexit (next_path w)] else [])
         ++ [EvLoad (next_name w) (next_path w)].
Proof.
  intros Hsrc Hexec.
  destruct (ast_to_object_returns nodes indentation false source_prefix
              delete_on_exit w code ns None Hsrc)
    as (w' & Hrun & Htrace & Hmods & _).
  { split; [exact Hexec|reflexivity]. }
  exists w'. split; [exact Hrun|]. split.
  - unfold module_of. rewrite Hmods, lookup_insert_eq. reflexivity.
  - rewrite Htrace. unfold call_events. cbn [app].
    destruct delete_on_exit; reflexivity.
Qed.




(** X19: the module name is the file name without directory and without
    the suffix ['.py'], so that the path of the file is the directory,
    the module name and ['.py']. *)
Theorem module_name_is_file_stem
    (w : world node value) (dir base : string) :
  tmp_stem (w_tmp w) = dir +:+ "/" +:+ base ->
  no_slash base = true ->
  next_name w = base
  /\ next_path w = dir +:+ "/" +:+ next_name w +:+ ".py"
  /\ Py.basename (Py.drop_last3 (next_path w)) = next_name w.
Proof.
  intros Hstem Hbase.
  assert (Hname : next_name w = base).
  { unfold next_name, Py.basename. rewrite Hstem, basename_from_dir.
    apply (basename_from_no_slash EmptyString base Hbase). }
  split; [exact Hname|]. split.
  - rewrite Hname. unfold next_path. rewrite Hstem, !append_assoc.
    reflexivity.
  - unfold next_path. rewrite drop_last3_py. reflexivity.
Qed.

(** X20: the index list has one index for each node, and every index is
    negative and not below minus the number of nodes; for no node it is
    empty. *)
Theorem indices_are_negative_and_in_range (s : pyseq node) :
  length (indices_of s) = length (items s)
  /\ Forall (fun i => (- Z.of_nat (length (items s)) <= i < 0)%Z)
            (indices_of s).
Proof.
  rewrite indices_of_trailing. unfold trailing_offsets. split.
  - rewrite length_map. apply length_seq.
  - apply List.Forall_forall. intros i Hin.
    apply in_map_iff in Hin as (k & <- & Hk).
    apply in_seq in Hk. lia.
Qed.

End CallsErrors.

(** * The further properties, run *)

Lemma ast_to_source_no_leading_blank_line_witness :
  "a" +:+ Py.nl = EmptyString
  \/ exists L rest,
       Py.split_nl ("a" +:+ Py.nl) = L :: rest /\ is_blank L = false.
Proof.
  exact (ast_to_source_no_leading_blank_line
           (PSeq (SList [EmptyString; "a"])) "  " ("a" +:+ Py.nl) eq_refl).
Defined.

Lemma ast_to_source_result_is_stripped_witness :
  strip_leading_blank_lines ("a" +:+ Py.nl +:+ Py.nl +:+ "b" +:+ Py.nl)
  = "a" +:+ Py.nl +:+ Py.nl +:+ "b" +:+ Py.nl.
Proof.
  exact (ast_to_source_result_is_stripped
           (PSeq (SList ["  "; "a"; EmptyString; "b"])) "  "
           ("a" +:+ Py.nl +:+ Py.nl +:+ "b" +:+ Py.nl) eq_refl).
Defined.

Lemma ast_to_source_keeps_text_without_leading_blank_witness :
  ast_to_source (PSeq (STuple ["a"; "  "])) "  "
  = Ok ("a" +:+ Py.nl +:+ "  " +:+ Py.nl).
Proof.
  exact (ast_to_source_keeps_text_without_leading_blank
           (PSeq (STuple ["a"; "  "])) "  "
           ("a" +:+ Py.nl +:+ "  " +:+ Py.nl) "a" ["  "; EmptyString]
           eq_refl eq_refl eq_refl).
Defined.

Lemma ast_to_source_all_blank_witness :
  ast_to_source (PSeq (SList ["  "; EmptyString])) "  " = Ok EmptyString.
Proof.
  apply (ast_to_source_all_blank (PSeq (SList ["  "; EmptyString])) "  "
           ("  " +:+ Py.nl +:+ Py.nl)).
  - reflexivity.
  - vm_compute. repeat constructor.
Defined.

Lemma ast_to_source_no_nodes_witness :
  ast_to_source (PSeq (STuple ([] : list string))) "  " = Ok EmptyString.
Proof.
  exact (ast_to_source_no_nodes (STuple ([] : list string)) "  " eq_refl).
Defined.

Lemma ast_to_source_ends_with_newline_witness :
  "a" +:+ Py.nl = EmptyString \/ exists t, "a" +:+ Py.nl = t +:+ Py.nl.
Proof.
  apply (ast_to_source_ends_with_newline (SList ["a"]) "  " ("a" +:+ Py.nl)).
  - discriminate.
  - reflexivity.
Defined.

Lemma ast_to_source_concatenates_in_order_witness :
  ast_to_source (PSeq (SList ["a"; "b"; "c"])) "  "
  = Ok (strip_leading_blank_lines
          (Py.join EmptyString
             ["a" +:+ Py.nl; "b" +:+ Py.nl; "c" +:+ Py.nl])).
Proof.
  assert (Hemit : forall (n : string) (g : generator Empty_set unit),
            In n (items (SList ["a"; "b"; "c"])) ->
            visit (canonical n) g
            = inr (Generator (result g ++ [FStr (canonical n)])
                     (internals g))).
  { intros n g Hin. cbn [items In] in Hin.
    destruct Hin as [<-|[<-|[<-|[]]]]; reflexivity. }
  pose proof (ast_to_source_concatenates_in_order
                (fun n : string => [FStr n]) (SList ["a"; "b"; "c"]) "  "
                Hemit) as Hw.
  vm_compute in Hw |- *. exact Hw.
Defined.

Lemma ast_to_source_first_error_witness :
  ast_to_source (PSeq (SList ["a"; "?"; "b"])) "  "
  = Raise (Raised "unsupported node").
Proof.
  apply (ast_to_source_first_error (SList ["a"; "?"; "b"]) ["a"] "?" ["b"]
           "  " (Generator [FStr "a"; FStr Py.nl] tt) "unsupported node");
    reflexivity.
Defined.


Lemma render_error_leaves_world_witness :
  ast_to_object (PNode "?") "  " true (Some "pre") true w0
  = (Raise (Raised "unsupported node"), w0).
Proof.
  exact (render_error_leaves_world (PNode "?") "  " true (Some "pre") true w0
           (Raised "unsupported node") eq_refl).
Defined.



Lemma source_map_error_leaves_file_witness :
  exists w',
    ast_to_object (PSeq (SList ([] : list gnode))) "  " true None true gw0
    = (Raise (Raised "nothing to map"), w')
    /\ w_atexit w' = []
    /\ w_disk (process_exit w') !! "/tmp/tmp0.py" = Some EmptyString.
Proof.
  destruct (source_map_error_leaves_file
              (PSeq (SList ([] : list gnode))) "  " None true gw0
              EmptyString "nothing to map")
    as (w' & Hrun & _ & Hreg & _ & Hdisk).
  - reflexivity.
  - reflexivity.
  - intros [].
  - exists w'. vm_compute in Hrun, Hreg, Hdisk |- *.
    split; [exact Hrun|]. split; [exact Hreg|exact Hdisk].
Defined.

Lemma without_source_map_no_check_witness :
  exists w',
    ast_to_object (PNode "ag_source_map__") "  " false None false w0
    = (Ok ("tmp0", "ag_source_map__" +:+ Py.nl), w')
    /\ m_dict (module_of w' "tmp0") !! "ag_source_map__"
       = Some (Obj "ag_source_map__").
Proof.
  destruct (without_source_map_no_check
              (PNode "ag_source_map__") "  " None false w0
              ("ag_source_map__" +:+ Py.nl)
              (<["ag_source_map__" := Obj "ag_source_map__"]> ∅))
    as (w' & Hrun & Hdict & _).
  - reflexivity.
  - vm_compute. reflexivity.
  - exists w'.
    pose proof (f_equal (fun d => d !! "ag_source_map__") Hdict) as Hkey.
    vm_compute in Hrun, Hkey |- *. split; [exact Hrun|exact Hkey].
Defined.





Lemma module_name_is_file_stem_witness :
  next_name w0 = "tmp0"
  /\ next_path w0 = "/tmp" +:+ "/" +:+ next_name w0 +:+ ".py"
  /\ Py.basename (Py.drop_last3 (next_path w0)) = next_name w0.
Proof.
  apply (module_name_is_file_stem w0 "/tmp" "tmp0"); reflexivity.
Defined.
